(** * modules/accounts.js of ark-node: the accounts API

    A shallow embedding of the request handlers of [modules/accounts.js]
    ([shared.getBalance], [shared.addDelegates]) and of the public methods
    they call ([getAccount], [setAccountAndGet]).

    The node-style callbacks [cb(err, result)] become values of a small
    monad that threads the state of the node and returns [inl err] or
    [inr result].  The collaborators that live in other files
    ([library.logic.account], [library.ed], [arkjs.crypto],
    [library.schema], the transaction pool) are the fields of a record
    that the module is given; a log records every call made to the
    store, to the transaction builder and to the pool. *)

From Stdlib Require Import String Ascii List Bool Arith.
Import ListNotations.
Local Open Scope string_scope.

(** ** JavaScript values *)

(** An optional string property: [None] is a missing ([undefined] or
    [null]) property.  A string is truthy unless it is empty. *)
Definition truthy (v : option string) : bool :=
  match v with
  | Some s => negb (s =? "")
  | None => false
  end.

(** The string held by a truthy property, as in [if (x) { ... x ... }]. *)
Definition whenTruthy (v : option string) : option string :=
  match v with
  | Some s => if s =? "" then None else Some s
  | None => None
  end.

(** A [Buffer] is represented by its lower-case hexadecimal encoding, so
    [toString('hex')] is the identity. *)
Definition Buffer := string.

Definition toHex (b : Buffer) : string := b.

(** A public key given either as a hexadecimal string or as the [Buffer]
    of a keypair.  A [Buffer] object is always truthy. *)
Inductive KeyValue : Type :=
| HexString (s : string)
| BufferValue (b : Buffer).

Definition whenTruthyKey (v : option KeyValue) : option KeyValue :=
  match v with
  | Some (HexString s) => if s =? "" then None else Some (HexString s)
  | Some (BufferValue b) => Some (BufferValue b)
  | None => None
  end.

(** [a === b] on two optional string properties. *)
Definition strictEq (a b : option string) : bool :=
  match a, b with
  | Some x, Some y => x =? y
  | None, None => true
  | _, _ => false
  end.

(** [Array.prototype.indexOf(x) < 0] on an array of strings. *)
Definition indexOf_lt_0 (l : list string) (x : string) : bool :=
  negb (existsb (String.eqb x) l).

(** The native error constructors. *)
Inductive ErrorName : Type :=
| EError | EEvalError | ERangeError | EReferenceError
| ESyntaxError | ETypeError | EURIError.

Definition errorName (c : ErrorName) : string :=
  match c with
  | EError => "Error"
  | EEvalError => "EvalError"
  | ERangeError => "RangeError"
  | EReferenceError => "ReferenceError"
  | ESyntaxError => "SyntaxError"
  | ETypeError => "TypeError"
  | EURIError => "URIError"
  end.

(** A thrown error object, as in [throw Error(message)]. *)
Record Exception : Type := mkException {
  exn_name : ErrorName;
  exn_message : string
}.

(** [Error.prototype.toString]: the name alone when the message is empty,
    otherwise the name, a colon and a space, and the message. *)
Definition toString (e : Exception) : string :=
  if exn_message e =? "" then errorName (exn_name e)
  else errorName (exn_name e) ++ ": " ++ exn_message e.

(** ** Data *)

Record Keypair : Type := mkKeypair {
  kp_publicKey : Buffer;
  kp_privateKey : Buffer
}.

(** An account as [library.logic.account.get] returns it.  [publicKey]
    and [multisignatures] may be missing; [secondSignature] is the
    truthiness of the stored flag. *)
Record Account : Type := mkAccount {
  address : string;
  publicKey : option string;
  balance : string;
  u_balance : string;
  secondSignature : bool;
  multisignatures : option (list string)
}.

(** The filter object given to [getAccount]. *)
Record Filter : Type := mkFilter {
  f_address : option string;
  f_publicKey : option KeyValue
}.

(** The filter [{address: address}]. *)
Definition addressFilter (address : string) : Filter :=
  mkFilter (Some address) None.

(** The data object given to [setAccountAndGet]. *)
Record AccountData : Type := mkAccountData {
  data_address : option string;
  data_publicKey : option string
}.

(** The object given to [library.logic.transaction.create]. *)
Record TxData : Type := mkTxData {
  tx_type : nat;
  votes : list string;
  sender : Account;
  keypair : Keypair;
  secondKeypair : option Keypair;
  requester : option Keypair
}.

(** A vote transaction (section 3 of the specification). *)
Record VoteTransaction : Type := mkVoteTransaction {
  type : nat;
  senderAddress : string;
  senderPublicKey : option string;
  requesterPublicKey : option string;
  votesAsset : list string;
  signature : string;
  signSignature : option string
}.

(** One issue reported by the schema validator. *)
Record Issue : Type := mkIssue { issue_message : string }.

(** [req.body] of [get /getBalance]. *)
Record GetBalanceBody : Type := mkGetBalanceBody {
  gb_address : string
}.

(** [req.body] of [put /delegates]. *)
Record AddDelegatesBody : Type := mkAddDelegatesBody {
  secret : string;
  secondSecret : option string;
  body_publicKey : option string;
  multisigAccountPublicKey : option string;
  delegates : list string
}.

Record Balances : Type := mkBalances {
  res_balance : string;
  res_unconfirmedBalance : string
}.

(** [{transaction: transaction[0]}]; the index is out of range on an
    empty array. *)
Record Submitted : Type := mkSubmitted {
  transaction : option VoteTransaction
}.

(** The calls made to the collaborators, in order. *)
Inductive Call : Type :=
| AccountGet (filter : Filter)
| AccountSet (address : string) (data : AccountData)
| TransactionCreate (data : TxData)
| ReceiveTransactions (transactions : list VoteTransaction).

Definition isStoreRead (c : Call) : bool :=
  match c with AccountGet _ => true | _ => false end.

Definition isStoreWrite (c : Call) : bool :=
  match c with AccountSet _ _ => true | _ => false end.

(** ** The regular expression [/^[1-9A-Za-z]{1,52}[A]$/g] *)

Definition between (lo hi c : ascii) : bool :=
  ((nat_of_ascii lo <=? nat_of_ascii c) && (nat_of_ascii c <=? nat_of_ascii hi))%nat.

(** The character class [[1-9A-Za-z]]. *)
Definition isAddressChar (c : ascii) : bool :=
  (between "1" "9" c || between "A" "Z" c || between "a" "z" c)%char.

(** [isAddress.test(s)] on a freshly built expression: between one and
    fifty-two characters of the class, then a final [A]. *)
Definition isAddress (s : string) : bool :=
  match rev (list_ascii_of_string s) with
  | [] => false
  | c :: front =>
      Ascii.eqb c "A"%char
      && (1 <=? length front)%nat && (length front <=? 52)%nat
      && forallb isAddressChar front
  end.

(** ** The collaborators

    What the module reaches through [library], [modules] and the packages
    it requires; [World] is the persistent state of the node (the ledger
    store and the transaction pool). *)
Record Scope (World : Type) : Type := mkScope {
  (** [crypto.createHash('sha256').update(s, 'utf8').digest()] *)
  sha256 : string -> Buffer;
  (** [library.ed.makeKeypair] *)
  makeKeypair : Buffer -> Keypair;
  (** [arkjs.crypto.getAddress] *)
  getAddress : KeyValue -> string;
  (** [library.logic.account.get]: a read of the ledger store. *)
  account_get : Filter -> World -> string + option Account;
  (** [library.logic.account.set]: a write to the ledger store. *)
  account_set : string -> AccountData -> World -> option string * World;
  (** [library.schema.validate]: [None], or a non-empty array of issues. *)
  validate_getBalance : GetBalanceBody -> option (Issue * list Issue);
  validate_addDelegates : AddDelegatesBody -> option (Issue * list Issue);
  (** [transactionTypes.VOTE] *)
  VOTE : nat;
  (** The checks of [library.logic.transaction.create] that throw. *)
  create_check : TxData -> option Exception;
  (** The signing primitive used by [library.logic.transaction.create]. *)
  sign : Keypair -> VoteTransaction -> string;
  (** [modules.transactions.receiveTransactions] *)
  receiveTransactions :
    list VoteTransaction -> World -> (string + list VoteTransaction) * World
}.

Arguments sha256 {World}.
Arguments makeKeypair {World}.
Arguments getAddress {World}.
Arguments account_get {World}.
Arguments account_set {World}.
Arguments validate_getBalance {World}.
Arguments validate_addDelegates {World}.
Arguments VOTE {World}.
Arguments create_check {World}.
Arguments sign {World}.
Arguments receiveTransactions {World}.

(** The state threaded through a request: the persistent state and the
    calls made so far. *)
Record Node (World : Type) : Type := mkNode {
  world : World;
  calls : list Call
}.

Arguments mkNode {World}.
Arguments world {World}.
Arguments calls {World}.

(** ** The callback monad *)

Definition M (World A : Type) : Type := Node World -> (string + A) * Node World.

Definition ret {World A} (a : A) : M World A := fun n => (inr a, n).

(** [return setImmediate(cb, err)] *)
Definition fail {World A} (err : string) : M World A := fun n => (inl err, n).

(** [if (err) { return setImmediate(cb, err); }] and then the rest: an
    error, a truthy value, ends the request. *)
Definition bind {World A B} (m : M World A) (k : A -> M World B) : M World B :=
  fun n =>
    match m n with
    | (inl err, n') => (inl err, n')
    | (inr a, n') => k a n'
    end.

Definition record {World} (c : Call) (n : Node World) : Node World :=
  mkNode (world n) (calls n ++ [c]).

Notation "x <- m ;; k" := (bind m (fun x => k))
  (at level 61, m at next level, right associativity).

(** ** The module *)

Section Accounts.

Variable World : Type.
Variable library : Scope World.

Local Abbreviation M := (M World).

Definition logic_account_get (filter : Filter) : M (option Account) :=
  fun n => (account_get library filter (world n), record (AccountGet filter) n).

Definition logic_account_set (address : string) (data : AccountData) : M unit :=
  fun n =>
    let '(err, w) := account_set library address data (world n) in
    (match err with Some e => inl e | None => inr tt end,
     mkNode w (calls n ++ [AccountSet address data])).

Definition modules_receiveTransactions (txs : list VoteTransaction)
  : M (list VoteTransaction) :=
  fun n =>
    let '(res, w) := receiveTransactions library txs (world n) in
    (res, mkNode w (calls n ++ [ReceiveTransactions txs])).

(** Modelled from the spec: [library.logic.transaction.create], whose
    file (logic/transaction.js) is not among the sources.  Sections 3 and
    4.4: the builder populates the vote list from the request, attaches
    the sender identity, applies the primary signature with the signer's
    keypair, applies the second signature if a second keypair is given,
    and attaches the requester's public key when a requester is given;
    an exception of the underlying checks is thrown to the caller. *)
Definition transaction_create (data : TxData) : Exception + VoteTransaction :=
  match create_check library data with
  | Some e => inl e
  | None =>
      let trs :=
        mkVoteTransaction (tx_type data)
          (address (sender data))
          (publicKey (sender data))
          (option_map (fun k => toHex (kp_publicKey k)) (requester data))
          (votes data) "" None in
      let signed :=
        mkVoteTransaction (type trs) (senderAddress trs) (senderPublicKey trs)
          (requesterPublicKey trs) (votesAsset trs)
          (sign library (keypair data) trs) None in
      inr (mkVoteTransaction (type trs) (senderAddress trs) (senderPublicKey trs)
             (requesterPublicKey trs) (votesAsset trs)
             (signature signed)
             (option_map (fun k => sign library k signed) (secondKeypair data)))
  end.

(** [try { transaction = library.logic.transaction.create(data); }
     catch (e) { return setImmediate(cb, e.toString()); }] *)
Definition try_create (data : TxData) : M VoteTransaction :=
  fun n =>
    (match transaction_create data with
     | inl e => inl (toString e)
     | inr trs => inr trs
     end, record (TransactionCreate data) n).

(** Modelled from the spec: [library.balancesSequence.add], whose file
    (helpers/sequence.js) is not among the sources.  Section 4.5: the
    sequencer runs the unit of work and, on completion, returns the
    built transaction or the first error to the original caller. *)
Definition balancesSequence_add {A B} (worker : M A) (done : string + A -> M B) : M B :=
  fun n => let '(res, n') := worker n in done res n'.

(** *** Public methods *)

(** [Accounts.prototype.generateAddressByPublicKey] *)
Definition generateAddressByPublicKey (publicKey : KeyValue) : string :=
  getAddress library publicKey.

(** [Accounts.prototype.getAccount] *)
Definition getAccount (filter : Filter) : M (option Account) :=
  match whenTruthyKey (f_publicKey filter) with
  | Some pk =>
      logic_account_get (addressFilter (generateAddressByPublicKey pk))
  | None => logic_account_get filter
  end.

(** [Accounts.prototype.setAccountAndGet] *)
Definition setAccountAndGet (data : AccountData) : M (option Account) :=
  let continue (address : string) : M (option Account) :=
    if address =? "" then fail "Invalid public key"
    else
      _ <- logic_account_set address data ;;
      logic_account_get (addressFilter address) in
  match whenTruthy (data_address data) with
  | Some address => continue address
  | None =>
      match whenTruthy (data_publicKey data) with
      | Some pk => continue (generateAddressByPublicKey (HexString pk))
      | None => fail "Missing address or public key"
      end
  end.

(** *** [shared.getBalance] *)

Definition getBalance (body : GetBalanceBody) : M Balances :=
  match validate_getBalance library body with
  | Some err => fail (issue_message (fst err))
  | None =>
      if negb (isAddress (gb_address body)) then fail "Invalid address"
      else
        account <- getAccount (addressFilter (gb_address body)) ;;
        let balance :=
          match account with Some a => balance a | None => "0" end in
        let unconfirmedBalance :=
          match account with Some a => u_balance a | None => "0" end in
        ret (mkBalances balance unconfirmedBalance)
  end.

(** *** [shared.addDelegates] *)

(** [keypair.publicKey.toString('hex') !== req.body.publicKey], tested
    only when [req.body.publicKey] is truthy (lines 266-270). *)
Definition publicKeyMismatch (body : AddDelegatesBody) (keypair : Keypair) : bool :=
  match whenTruthy (body_publicKey body) with
  | Some pk => negb (toHex (kp_publicKey keypair) =? pk)
  | None => false
  end.

(** The condition of line 273: the multisignature account named by the
    request, when it is truthy and differs from the signer's key. *)
Definition delegatedTarget (body : AddDelegatesBody) (keypair : Keypair)
  : option string :=
  match whenTruthy (multisigAccountPublicKey body) with
  | Some target =>
      if negb (target =? toHex (kp_publicKey keypair)) then Some target else None
  | None => None
  end.

(** [secondKeypair], derived from [req.body.secondSecret] when the
    account asks for a second signature (lines 308-313 and 347-352); the
    second passphrase is truthy there, by the guard that comes before. *)
Definition deriveSecondKeypair (body : AddDelegatesBody) (account : Account)
  : option Keypair :=
  if secondSignature account
  then option_map (fun s => makeKeypair library (sha256 library s)) (secondSecret body)
  else None.

(** Lines 274-313 and 318-325: resolution of the multisignature account
    and of the requester, the authorization checks, and the object
    given to [library.logic.transaction.create]. *)
Definition resolveDelegated (body : AddDelegatesBody) (keypair : Keypair)
    (target : string) : M TxData :=
  account <- getAccount (mkFilter None (Some (HexString target))) ;;
  match account with
  | None => fail "Multisignature account not found"
  | Some account =>
    if negb (truthy (publicKey account))
    then fail "Multisignature account not found"
    else
      (* [!account.multisignatures || !account.multisignatures]: an
         array, empty or not, is truthy *)
      match multisignatures account with
      | None => fail "Account does not have multisignatures enabled"
      | Some members =>
        if indexOf_lt_0 members (toHex (kp_publicKey keypair))
        then fail "Account does not belong to multisignature group"
        else
          requester <-
            getAccount (mkFilter None (Some (BufferValue (kp_publicKey keypair)))) ;;
          match requester with
          | None => fail "Requester not found"
          | Some requester =>
            if negb (truthy (publicKey requester))
            then fail "Requester not found"
            else if secondSignature requester && negb (truthy (secondSecret body))
            then fail "Missing requester second passphrase"
            else if strictEq (publicKey requester) (publicKey account)
            then fail "Invalid requester public key"
            else
              ret (mkTxData (VOTE library) (delegates body) account keypair
                     (deriveSecondKeypair body requester) (Some keypair))
          end
      end
  end.

(** [{ publicKey: keypair.publicKey.toString('hex') }] (line 334) *)
Definition signerData (kp : Keypair) : AccountData :=
  mkAccountData None (Some (toHex (kp_publicKey kp))).

(** Lines 334-352 and 357-363: resolution of the signer's own account,
    the second passphrase check, and the object given to
    [library.logic.transaction.create]. *)
Definition resolveDirect (body : AddDelegatesBody) (keypair : Keypair)
  : M TxData :=
  account <-
    setAccountAndGet (signerData keypair) ;;
  match account with
  | None => fail "Account not found"
  | Some account =>
    if negb (truthy (publicKey account))
    then fail "Account not found"
    else if secondSignature account && negb (truthy (secondSecret body))
    then fail "Invalid second passphrase"
    else
      ret (mkTxData (VOTE library) (delegates body) account keypair
             (deriveSecondKeypair body account) None)
  end.

(** The resolve and authorize phase of the function given to
    [library.balancesSequence.add] (lines 273-313 and 334-352). *)
Definition resolve (body : AddDelegatesBody) (keypair : Keypair) : M TxData :=
  match delegatedTarget body keypair with
  | Some target => resolveDelegated body keypair target
  | None => resolveDirect body keypair
  end.

(** The function given to [library.balancesSequence.add]. *)
Definition worker (body : AddDelegatesBody) (keypair : Keypair)
  : M (list VoteTransaction) :=
  data <- resolve body keypair ;;
  trs <- try_create data ;;
  modules_receiveTransactions [trs].

(** The completion callback of the sequence (lines 371-377). *)
Definition done (res : string + list VoteTransaction) : M Submitted :=
  match res with
  | inl err => fail err
  | inr transaction => ret (mkSubmitted (hd_error transaction))
  end.

Definition deriveKeypair (body : AddDelegatesBody) : Keypair :=
  makeKeypair library (sha256 library (secret body)).

(** [shared.addDelegates] *)
Definition addDelegates (body : AddDelegatesBody) : M Submitted :=
  match validate_addDelegates library body with
  | Some err => fail (issue_message (fst err))
  | None =>
      let keypair := deriveKeypair body in
      if publicKeyMismatch body keypair then fail "Invalid passphrase"
      else balancesSequence_add (worker body keypair) done
  end.

(** *** Vocabulary of the statements *)

(** The store holds [account] at the address of the key [k]: what a
    lookup by public key finds. *)
Definition resolves (k : KeyValue) (w : World) (account : Account) : Prop :=
  account_get library (addressFilter (generateAddressByPublicKey k)) w
  = inr (Some account).

(** The request passes the schema and the check of the expected public
    key, and so enters the sequence. *)
Definition admitted (body : AddDelegatesBody) : Prop :=
  validate_addDelegates library body = None
  /\ publicKeyMismatch body (deriveKeypair body) = false.

(** The node after the lookup of the target account. *)
Definition afterTarget (target : string) (n : Node World) : Node World :=
  record (AccountGet (addressFilter (getAddress library (HexString target)))) n.

(** The node after the lookup of the requester account. *)
Definition afterRequester (kp : Keypair) (n : Node World) : Node World :=
  record
    (AccountGet (addressFilter (getAddress library (BufferValue (kp_publicKey kp)))))
    n.

(** The signer's public key in hexadecimal. *)
Definition signerKey (body : AddDelegatesBody) : string :=
  toHex (kp_publicKey (deriveKeypair body)).

End Accounts.

Arguments logic_account_get {World}.
Arguments logic_account_set {World}.
Arguments modules_receiveTransactions {World}.
Arguments transaction_create {World}.
Arguments try_create {World}.
Arguments balancesSequence_add {World A B}.
Arguments generateAddressByPublicKey {World}.
Arguments getAccount {World}.
Arguments setAccountAndGet {World}.
Arguments getBalance {World}.
Arguments deriveSecondKeypair {World}.
Arguments resolveDelegated {World}.
Arguments resolveDirect {World}.
Arguments resolve {World}.
Arguments worker {World}.
Arguments done {World}.
Arguments deriveKeypair {World}.
Arguments addDelegates {World}.
Arguments resolves {World}.
Arguments admitted {World}.
Arguments signerKey {World}.
Arguments afterTarget {World}.
Arguments afterRequester {World}.

(** [account.multisignatures || []], the view of the group that
    [shared.getAccount] answers with (line 410). *)
Definition multisignaturesOrEmpty (account : Account) : list string :=
  match multisignatures account with
  | Some members => members
  | None => []
  end.

(** ** A small node to run the handlers on

    A ledger kept as an association list from addresses to accounts, a
    pool that accepts every transaction, and stand-ins for the
    cryptographic primitives.  Decoding a hexadecimal string does not
    depend on the case of its letters, so neither does the address. *)
Module Devnet.

Definition World : Type := (list (string * Account) * list VoteTransaction)%type.

Definition lowerChar (c : ascii) : ascii :=
  if between "A" "Z" c then ascii_of_nat (nat_of_ascii c + 32) else c.

Fixpoint lower (s : string) : string :=
  match s with
  | EmptyString => EmptyString
  | String c rest => String (lowerChar c) (lower rest)
  end.

Definition addressOf (k : KeyValue) : string :=
  match k with
  | HexString s => lower s ++ "A"
  | BufferValue b => b ++ "A"
  end.

Fixpoint find (address : string) (ledger : list (string * Account))
  : option Account :=
  match ledger with
  | [] => None
  | (a, account) :: rest => if a =? address then Some account else find address rest
  end.

Definition merge (data : AccountData) (account : Account) : Account :=
  mkAccount (address account)
    (match data_publicKey data with Some pk => Some pk | None => publicKey account end)
    (balance account) (u_balance account)
    (secondSignature account) (multisignatures account).

Fixpoint upsert (address : string) (data : AccountData)
    (ledger : list (string * Account)) : list (string * Account) :=
  match ledger with
  | [] => [(address, mkAccount address (data_publicKey data) "0" "0" false None)]
  | (a, account) :: rest =>
      if a =? address then (a, merge data account) :: rest
      else (a, account) :: upsert address data rest
  end.

Definition get (filter : Filter) (w : World) : string + option Account :=
  match f_address filter with
  | Some a => inr (find a (fst w))
  | None => inr None
  end.

Definition set (address : string) (data : AccountData) (w : World)
  : option string * World :=
  (None, (upsert address data (fst w), snd w)).

Definition validate (body : AddDelegatesBody)
  : option (Issue * list Issue) :=
  if secret body =? ""
  then Some (mkIssue "String is too short (0 chars), minimum 1", [])
  else None.

Definition check (data : TxData) : option Exception :=
  match votes data with
  | [] => Some (mkException EError "Invalid votes. Must not be empty")
  | _ => None
  end.

Definition library : Scope World :=
  mkScope World
    (fun s => s)
    (fun seed => mkKeypair ("02" ++ seed) seed)
    addressOf
    get
    set
    (fun _ => None)
    validate
    3
    check
    (fun k _ => "signed:" ++ kp_privateKey k)
    (fun txs w => (inr txs, (fst w, (snd w ++ txs)%list))).

Definition start (ledger : list (string * Account)) : Node World :=
  mkNode (ledger, []) [].

End Devnet.

(** ** Sample requests and ledgers *)
Module Samples.

Import Devnet.

(** The account stored for a key, with its second-signature flag and its
    multisignature group. *)
Definition account (pk : string) (second : bool) (group : option (list string))
  : Account :=
  mkAccount (addressOf (HexString pk)) (Some pk) "10" "10" second group.

Definition entry (a : Account) : string * Account := (address a, a).

(** A vote signed with the passphrase ["abc"], whose key is ["02abc"]. *)
Definition vote (expected target : option string) (delegates : list string)
  : AddDelegatesBody :=
  mkAddDelegatesBody "abc" None expected target delegates.

Definition directVote : AddDelegatesBody := vote None None ["+02def"].

(** A vote cast for the account of key ["02ff"]. *)
Definition groupVote : AddDelegatesBody := vote None (Some "02ff") ["+02def"].

(** A vote that names the signer's own key in upper case as its target. *)
Definition selfVote : AddDelegatesBody := vote None (Some "02ABC") ["+02def"].

(** A vote that supplies an empty expected public key. *)
Definition blankKeyVote : AddDelegatesBody := vote (Some "") None ["+02def"].

(** A vote that supplies an expected public key that is not the signer's. *)
Definition wrongKeyVote : AddDelegatesBody :=
  vote (Some "02zzz") None ["+02def"].

(** A vote with no delegate, which [create] refuses. *)
Definition emptyVote : AddDelegatesBody := vote None None [].

(** The signer's account: no second signature, no group. *)
Definition signer : Account := account "02abc" false None.

(** The signer's account with a second signature registered. *)
Definition securedSigner : Account := account "02abc" true None.

(** The signer's account as a group of which it is itself a member. *)
Definition selfGroup : Account := account "02abc" false (Some ["02abc"]).

(** The account of key ["02ff"]: without a group, with an empty group,
    with a group of strangers, with a group that holds the signer. *)
Definition plainTarget : Account := account "02ff" false None.
Definition emptyGroup : Account := account "02ff" false (Some []).
Definition otherGroup : Account := account "02ff" false (Some ["02eee"]).
Definition signerGroup : Account := account "02ff" false (Some ["02abc"]).

Definition keys : Keypair := deriveKeypair library directVote.

End Samples.

(** ** The other handlers and methods of the module *)

(** Every property of an account that the handlers below read: the
    account seen so far, its votes and the unconfirmed and second-key
    properties. *)
Record AccountRow : Type := mkAccountRow {
  row_account : Account;
  row_delegates : option (list string);
  u_secondSignature : bool;
  secondPublicKey : option string;
  u_multisignatures : option (list string)
}.

(** A delegate of the registry. *)
Record Delegate : Type := mkDelegate {
  delegate_username : string;
  delegate_publicKey : string
}.

(** [req.body] of [get /getPublicKey] and of [get /]. *)
Record AddressBody : Type := mkAddressBody {
  ab_address : string
}.

(** [req.body] of [get /delegates]; the whole object goes to
    [modules.delegates.getDelegates]. *)
Record GetDelegatesBody : Type := mkGetDelegatesBody {
  gd_address : string;
  gd_orderBy : option string;
  gd_limit : option nat;
  gd_offset : option nat
}.

(** [{publicKey: account.publicKey}] *)
Record PublicKeyReply : Type := mkPublicKeyReply {
  reply_publicKey : string
}.

(** The [account] object of the answer of [get /]. *)
Record AccountReply : Type := mkAccountReply {
  ar_address : string;
  ar_unconfirmedBalance : string;
  ar_balance : string;
  ar_publicKey : option string;
  ar_unconfirmedSignature : bool;
  ar_secondSignature : bool;
  ar_secondPublicKey : option string;
  ar_multisignatures : list string;
  ar_u_multisignatures : list string
}.

(** [{delegates: delegates}] *)
Record DelegatesReply : Type := mkDelegatesReply {
  reply_delegates : list Delegate
}.

(** What becomes of a request: the callback is called, or an exception
    leaves the handler before it is. *)
Inductive Outcome (A : Type) : Type :=
| Replied (r : string + A)
| Uncaught (name : ErrorName).

Arguments Replied {A}.
Arguments Uncaught {A}.

(** The data of [mergeAccountAndGet]: its [address] and [publicKey]
    properties, and the rest of the object, which only the store reads. *)
Record MergeData (Diff : Type) : Type := mkMergeData {
  merge_key : AccountData;
  merge_diff : Diff
}.

Arguments mkMergeData {Diff}.
Arguments merge_key {Diff}.
Arguments merge_diff {Diff}.

(** The collaborators of the handlers below. *)
Record Api (World Diff : Type) : Type := mkApi {
  (** [library.logic.account.get], with every property of the account. *)
  account_row : Filter -> World -> string + option AccountRow;
  (** [library.logic.account.merge] *)
  account_merge :
    string -> MergeData Diff -> World -> (string + option Account) * World;
  (** [library.schema.validate] with the schemas of the three handlers. *)
  validate_getPublicKey : AddressBody -> option (Issue * list Issue);
  validate_getDelegates : GetDelegatesBody -> option (Issue * list Issue);
  validate_getAccount : AddressBody -> option (Issue * list Issue);
  (** [modules.delegates.getDelegates]: the [err] and the [res.delegates]
      given to its callback; [res] may be [undefined]. *)
  delegates_getDelegates :
    GetDelegatesBody -> World -> option string * option (list Delegate)
}.

Arguments account_row {World Diff}.
Arguments account_merge {World Diff}.
Arguments validate_getPublicKey {World Diff}.
Arguments validate_getDelegates {World Diff}.
Arguments validate_getAccount {World Diff}.
Arguments delegates_getDelegates {World Diff}.

(** [Array.prototype.indexOf(x) !== -1] on an array of strings. *)
Definition includes (l : list string) (x : string) : bool :=
  existsb (String.eqb x) l.

(** [x || []] on an optional array. *)
Definition orEmpty (v : option (list string)) : list string :=
  match v with
  | Some l => l
  | None => []
  end.

Definition isStoreCall (c : Call) : bool := isStoreRead c || isStoreWrite c.

(** The accounts in the rows that the store returns. *)
Definition accountsOf (r : string + option AccountRow) : string + option Account :=
  match r with
  | inl err => inl err
  | inr found => inr (option_map row_account found)
  end.

(** The request with another [multisigAccountPublicKey]. *)
Definition withTarget (target : option string) (body : AddDelegatesBody)
  : AddDelegatesBody :=
  mkAddDelegatesBody (secret body) (secondSecret body) (body_publicKey body)
    target (delegates body).

(** The request with another [secondSecret]. *)
Definition withSecondSecret (second : option string) (body : AddDelegatesBody)
  : AddDelegatesBody :=
  mkAddDelegatesBody (secret body) second (body_publicKey body)
    (multisigAccountPublicKey body) (delegates body).

(** The request with another [publicKey]. *)
Definition withPublicKey (expected : option string) (body : AddDelegatesBody)
  : AddDelegatesBody :=
  mkAddDelegatesBody (secret body) (secondSecret body) expected
    (multisigAccountPublicKey body) (delegates body).

Section Handlers.

Variable World Diff : Type.
Variable library : Scope World.
Variable api : Api World Diff.

Local Abbreviation M := (M World).

Definition logic_account_row (filter : Filter) : M (option AccountRow) :=
  fun n => (account_row api filter (world n), record (AccountGet filter) n).

(** [Accounts.prototype.getAccount], for the handlers that read more of
    the account than [Account] holds. *)
Definition getAccountRow (filter : Filter) : M (option AccountRow) :=
  match whenTruthyKey (f_publicKey filter) with
  | Some pk =>
      logic_account_row (addressFilter (generateAddressByPublicKey library pk))
  | None => logic_account_row filter
  end.

(** [Accounts.prototype.mergeAccountAndGet] *)
Definition mergeAccountAndGet (data : MergeData Diff) : M (option Account) :=
  let continue (address : string) : M (option Account) :=
    if address =? "" then fail "Invalid public key"
    else
      (* the log has no entry for a merge and is left as it is *)
      fun n =>
        let '(res, w) := account_merge api address data (world n) in
        (res, mkNode w (calls n)) in
  match whenTruthy (data_address (merge_key data)) with
  | Some address => continue address
  | None =>
      match whenTruthy (data_publicKey (merge_key data)) with
      | Some pk => continue (generateAddressByPublicKey library (HexString pk))
      | None => fail "Missing address or public key"
      end
  end.

(** [shared.getPublickey] *)
Definition getPublickey (body : AddressBody) : M PublicKeyReply :=
  match validate_getPublicKey api body with
  | Some err => fail (issue_message (fst err))
  | None =>
      if negb (isAddress (ab_address body)) then fail "Invalid address"
      else
        account <- getAccount library (addressFilter (ab_address body)) ;;
        match account with
        | None => fail "Account not found"
        | Some account =>
            match whenTruthy (publicKey account) with
            | None => fail "Account not found"
            | Some pk => ret (mkPublicKeyReply pk)
            end
        end
  end.

(** [shared.getAccount] *)
Definition shared_getAccount (body : AddressBody) : M AccountReply :=
  match validate_getAccount api body with
  | Some err => fail (issue_message (fst err))
  | None =>
      if negb (isAddress (ab_address body)) then fail "Invalid address"
      else
        account <- getAccountRow (addressFilter (ab_address body)) ;;
        match account with
        | None => fail "Account not found"
        | Some row =>
            let account := row_account row in
            ret (mkAccountReply
                   (address account)
                   (u_balance account)
                   (balance account)
                   (publicKey account)
                   (u_secondSignature row)
                   (secondSignature account)
                   (secondPublicKey row)
                   (orEmpty (multisignatures account))
                   (orEmpty (u_multisignatures row)))
        end
  end.

(** [shared.getDelegates].  The callback given to
    [modules.delegates.getDelegates] does not look at [err] and reads
    [res.delegates], which throws a [TypeError] when [res] is
    [undefined]. *)
Definition getDelegates (body : GetDelegatesBody)
  : Node World -> Outcome DelegatesReply * Node World :=
  fun n =>
    match validate_getDelegates api body with
    | Some err => (Replied (inl (issue_message (fst err))), n)
    | None =>
        match getAccountRow (addressFilter (gd_address body)) n with
        | (inl err, n') => (Replied (inl err), n')
        | (inr None, n') => (Replied (inl "Account not found"), n')
        | (inr (Some row), n') =>
            match row_delegates row with
            | Some voted =>
                match delegates_getDelegates api body (world n') with
                | (_, Some registered) =>
                    (Replied
                       (inr (mkDelegatesReply
                               (filter
                                  (fun delegate =>
                                     includes voted (delegate_publicKey delegate))
                                  registered))),
                     n')
                | (_, None) => (Uncaught ETypeError, n')
                end
            | None => (Replied (inr (mkDelegatesReply [])), n')
            end
        end
    end.

End Handlers.

Arguments logic_account_row {World Diff}.
Arguments getAccountRow {World Diff}.
Arguments mergeAccountAndGet {World Diff}.
Arguments getPublickey {World Diff}.
Arguments shared_getAccount {World Diff}.
Arguments getDelegates {World Diff}.

(** ** The sample node, for the other handlers *)
Module DevnetApi.

(** The rest of a merge: an amount added to the balance, kept as text. *)
Definition Diff : Type := string.

(** The votes of the sample accounts, by address. *)
Definition votesOf (address : string) : option (list string) :=
  if address =? "1holderA" then Some ["02d1"; "02d3"]
  else if address =? "1keylessA" then Some []
  else None.

Definition rowOf (a : Account) : AccountRow :=
  mkAccountRow a (votesOf (address a)) false None (multisignatures a).

Definition row (filter : Filter) (w : Devnet.World)
  : string + option AccountRow :=
  match Devnet.get filter w with
  | inl err => inl err
  | inr found => inr (option_map rowOf found)
  end.

Definition merge (address : string) (data : MergeData Diff) (w : Devnet.World)
  : (string + option Account) * Devnet.World :=
  let ledger := Devnet.upsert address (merge_key data) (fst w) in
  (inr (Devnet.find address ledger), (ledger, snd w)).

Definition validateAddress (body : AddressBody) : option (Issue * list Issue) :=
  if ab_address body =? ""
  then Some (mkIssue "String is too short (0 chars), minimum 1", [])
  else None.

Definition registry : list Delegate :=
  [mkDelegate "genesis_1" "02d1"; mkDelegate "genesis_2" "02d2";
   mkDelegate "genesis_3" "02d3"].

(** The registry refuses the sort field ["bad"] and gives no result. *)
Definition registered (body : GetDelegatesBody) (w : Devnet.World)
  : option string * option (list Delegate) :=
  match gd_orderBy body with
  | Some "bad" => (Some "Invalid sort field", None)
  | _ => (None, Some registry)
  end.

Definition api : Api Devnet.World Diff :=
  mkApi Devnet.World Diff row merge validateAddress (fun _ => None)
    validateAddress registered.

(** An account with a key, a second signature and a group, and one that
    has not signed yet. *)
Definition holder : Account :=
  mkAccount "1holderA" (Some "03aa") "250" "240" true (Some ["03bb"]).

Definition keyless : Account := mkAccount "1keylessA" None "7" "7" false None.

Definition ledger : list (string * Account) :=
  [("1holderA", holder); ("1keylessA", keyless)].

End DevnetApi.

(** ** More sample requests *)
Module MoreSamples.

Import Devnet Samples.

(** The sample node with a store that accepts every write and keeps
    none. *)
Definition forgetful : Scope World :=
  mkScope World (sha256 library) (makeKeypair library) (getAddress library)
    (account_get library) (fun _ _ w => (None, w))
    (validate_getBalance library) (validate_addDelegates library)
    (VOTE library) (create_check library) (sign library)
    (receiveTransactions library).

(** A direct vote that carries a second passphrase. *)
Definition securedVote : AddDelegatesBody := withSecondSecret (Some "pin") directVote.

(** A vote that names the signer's own key as its target. *)
Definition ownKeyVote : AddDelegatesBody := withTarget (Some "02abc") directVote.

(** A vote that states the signer's key as the expected one. *)
Definition checkedVote : AddDelegatesBody := withPublicKey (Some "02abc") directVote.

(** The plan of [groupVote] for the group that holds the signer. *)
Definition groupPlan : TxData :=
  mkTxData 3 ["+02def"] signerGroup keys None (Some keys).

(** The plan of [securedVote] for the signer with a second signature. *)
Definition securedPlan : TxData :=
  mkTxData 3 ["+02def"] securedSigner keys
    (Some (mkKeypair "02pin" "pin")) None.

Definition holderQuery : AddressBody := mkAddressBody "1holderA".

Definition holderVotes : GetDelegatesBody :=
  mkGetDelegatesBody "1holderA" None None None.

Definition holderVotesBadSort : GetDelegatesBody :=
  mkGetDelegatesBody "1holderA" (Some "bad") None None.

Definition oddVotes : GetDelegatesBody :=
  mkGetDelegatesBody "not an address" None None None.

Definition bank : Node World := start DevnetApi.ledger.

End MoreSamples.

(** * Properties *)

(** ** The address pattern *)

Example isAddress_accepts : isAddress "AJbmGnDAx9y91MQCDApyaqZhn6fBvYX9iJA" = true.
Proof. reflexivity. Qed.

Example isAddress_wants_a_body : isAddress "A" = false.
Proof. reflexivity. Qed.

Example isAddress_refuses_zero : isAddress "a0A" = false.
Proof. reflexivity. Qed.

Example isAddress_wants_final_A : isAddress "1xyzB" = false.
Proof. reflexivity. Qed.

Section Properties.

Variable World : Type.
Variable library : Scope World.

(** ** The monad and the sequence *)

Lemma bind_fail {A B} (m : M World A) (k : A -> M World B) n err n' :
  m n = (inl err, n') -> bind m k n = (inl err, n').
Proof. intros H. unfold bind. now rewrite H. Qed.

Lemma bind_ret {A B} (m : M World A) (k : A -> M World B) n a n' :
  m n = (inr a, n') -> bind m k n = k a n'.
Proof. intros H. unfold bind. now rewrite H. Qed.

(** An admitted request is the work of [worker] followed by the
    completion callback. *)
Lemma addDelegates_sequenced body n :
  admitted library body ->
  addDelegates library body n =
    (let '(res, n') := worker library body (deriveKeypair library body) n in
     done res n').
Proof.
  intros [Hv Hm]. unfold addDelegates.
  rewrite Hv. cbv zeta. rewrite Hm. reflexivity.
Qed.

(** An error of the resolve and authorize phase is the answer of the
    request, and nothing is built or dispatched after it. *)
Lemma addDelegates_rejected body n err n' :
  admitted library body ->
  resolve library body (deriveKeypair library body) n = (inl err, n') ->
  addDelegates library body n = (inl err, n').
Proof.
  intros Ha Hr. rewrite addDelegates_sequenced by assumption.
  unfold worker. rewrite (bind_fail _ _ _ _ _ Hr). reflexivity.
Qed.

(** With a plan out of the resolve and authorize phase, the answer is that
    of the build and dispatch steps. *)
Lemma addDelegates_planned body n data n' :
  admitted library body ->
  resolve library body (deriveKeypair library body) n = (inr data, n') ->
  addDelegates library body n =
    (let '(res, n'') :=
       bind (try_create library data)
         (fun trs => modules_receiveTransactions library [trs]) n' in
     done res n'').
Proof.
  intros Ha Hr. rewrite addDelegates_sequenced by assumption.
  unfold worker. rewrite (bind_ret _ _ _ _ _ Hr). reflexivity.
Qed.

Lemma whenTruthy_Some v s : whenTruthy v = Some s -> v = Some s /\ s <> "".
Proof.
  destruct v as [t|]; cbn; [|discriminate].
  destruct (t =? "") eqn:E; [discriminate|].
  intros [= ->]. split; [reflexivity|]. now apply String.eqb_neq.
Qed.

Lemma whenTruthy_nonempty s : s <> "" -> whenTruthy (Some s) = Some s.
Proof.
  intros H. cbn. apply String.eqb_neq in H. now rewrite H.
Qed.

Lemma truthy_whenTruthy v : truthy v = false -> whenTruthy v = None.
Proof.
  destruct v as [s|]; cbn; [|reflexivity].
  now destruct (s =? "").
Qed.

Lemma delegatedTarget_Some body kp target :
  delegatedTarget body kp = Some target ->
  multisigAccountPublicKey body = Some target
  /\ target <> "" /\ target <> toHex (kp_publicKey kp).
Proof.
  unfold delegatedTarget.
  destruct (whenTruthy (multisigAccountPublicKey body)) as [t|] eqn:E;
    [|discriminate].
  destruct (t =? toHex (kp_publicKey kp)) eqn:Et; cbn; [discriminate|].
  intros [= ->]. apply whenTruthy_Some in E as [E1 E2].
  repeat split; try assumption. now apply String.eqb_neq.
Qed.

(** ** Account resolution *)

(** A lookup by the hexadecimal key of a delegated target is one read of
    the store at the derived address. *)
Lemma getAccount_target target n :
  target <> "" ->
  getAccount library (mkFilter None (Some (HexString target))) n =
    (account_get library
       (addressFilter (getAddress library (HexString target))) (world n),
     record (AccountGet (addressFilter (getAddress library (HexString target)))) n).
Proof.
  intros Ht. unfold getAccount. cbn [f_publicKey whenTruthyKey].
  apply String.eqb_neq in Ht. rewrite Ht. reflexivity.
Qed.

(** A lookup by the key of the keypair is one read of the store. *)
Lemma getAccount_buffer b n :
  getAccount library (mkFilter None (Some (BufferValue b))) n =
    (account_get library
       (addressFilter (getAddress library (BufferValue b))) (world n),
     record (AccountGet (addressFilter (getAddress library (BufferValue b)))) n).
Proof. reflexivity. Qed.

(** ** [shared.getBalance] *)

(** C10: a [getBalance] request that passes the schema, whose address
    matches the address pattern and for which the store holds no account
    record, succeeds with balance ["0"] and unconfirmedBalance ["0"]; it
    is not answered with an account-not-found error. *)
Theorem getBalance_unknown_account body n :
  validate_getBalance library body = None ->
  isAddress (gb_address body) = true ->
  account_get library (addressFilter (gb_address body)) (world n) = inr None ->
  getBalance library body n =
    (inr (mkBalances "0" "0"),
     record (AccountGet (addressFilter (gb_address body))) n).
Proof.
  intros Hv Ha Hg. unfold getBalance. rewrite Hv, Ha. cbn [negb].
  unfold bind, getAccount. cbn [addressFilter f_publicKey whenTruthyKey].
  unfold logic_account_get. fold (addressFilter (gb_address body)).
  rewrite Hg. reflexivity.
Qed.

(** ** [shared.addDelegates]: the schema and the expected public key *)

(** A request that the schema refuses is answered with the message of the
    first issue, and the node is left as it was. *)
Lemma addDelegates_schema_error body n issue issues :
  validate_addDelegates library body = Some (issue, issues) ->
  addDelegates library body n = (inl (issue_message issue), n).
Proof. intros H. unfold addDelegates. now rewrite H. Qed.

(** C4, as the code has it: a request that passes the schema and supplies
    a non-empty [publicKey] different from the public key derived from
    [secret] is rejected with ["Invalid passphrase"] (InvalidCredential),
    and the node is left as it was: no account is resolved, the store is
    not read. *)
Theorem addDelegates_invalid_passphrase body n pk :
  validate_addDelegates library body = None ->
  body_publicKey body = Some pk ->
  pk <> "" ->
  pk <> signerKey library body ->
  addDelegates library body n = (inl "Invalid passphrase", n).
Proof.
  intros Hv Hpk Hne Hdiff. unfold addDelegates. rewrite Hv. cbv zeta.
  unfold publicKeyMismatch. rewrite Hpk, (whenTruthy_nonempty _ Hne).
  replace (toHex (kp_publicKey (deriveKeypair library body)) =? pk) with false.
  - reflexivity.
  - symmetry. apply String.eqb_neq. intros E. apply Hdiff. now rewrite <- E.
Qed.

(** ** [shared.addDelegates]: the delegated path *)

Lemma resolve_delegated body kp target :
  delegatedTarget body kp = Some target ->
  resolve library body kp = resolveDelegated library body kp target.
Proof. intros H. unfold resolve. now rewrite H. Qed.

Lemma resolve_direct body kp :
  delegatedTarget body kp = None ->
  resolve library body kp = resolveDirect library body kp.
Proof. intros H. unfold resolve. now rewrite H. Qed.

Ltac enter_delegated Ht Hacc Hpk :=
  unfold resolveDelegated, bind;
  rewrite (getAccount_target _ _ Ht);
  unfold resolves, generateAddressByPublicKey in Hacc;
  rewrite Hacc, Hpk; cbn [negb].

(** A target account without a [multisignatures] property is answered
    with ["Account does not have multisignatures enabled"]. *)
Lemma resolveDelegated_not_enabled body kp target n account :
  target <> "" ->
  resolves library (HexString target) (world n) account ->
  truthy (publicKey account) = true ->
  multisignatures account = None ->
  resolveDelegated library body kp target n =
    (inl "Account does not have multisignatures enabled", afterTarget library target n).
Proof.
  intros Ht Hacc Hpk Hms. enter_delegated Ht Hacc Hpk.
  rewrite Hms. reflexivity.
Qed.

(** A target account whose [multisignatures] array does not hold the
    signer's key is answered with
    ["Account does not belong to multisignature group"]. *)
Lemma resolveDelegated_outsider body kp target n account members :
  target <> "" ->
  resolves library (HexString target) (world n) account ->
  truthy (publicKey account) = true ->
  multisignatures account = Some members ->
  indexOf_lt_0 members (toHex (kp_publicKey kp)) = true ->
  resolveDelegated library body kp target n =
    (inl "Account does not belong to multisignature group", afterTarget library target n).
Proof.
  intros Ht Hacc Hpk Hms Hout. enter_delegated Ht Hacc Hpk.
  rewrite Hms, Hout. reflexivity.
Qed.

(** Past the membership check, the answer is decided by the requester
    account: its second passphrase first, its public key next. *)
Lemma resolveDelegated_member body kp target n account members requester :
  target <> "" ->
  resolves library (HexString target) (world n) account ->
  truthy (publicKey account) = true ->
  multisignatures account = Some members ->
  indexOf_lt_0 members (toHex (kp_publicKey kp)) = false ->
  resolves library (BufferValue (kp_publicKey kp)) (world n) requester ->
  truthy (publicKey requester) = true ->
  resolveDelegated library body kp target n =
    (if secondSignature requester && negb (truthy (secondSecret body))
     then inl "Missing requester second passphrase"
     else if strictEq (publicKey requester) (publicKey account)
     then inl "Invalid requester public key"
     else inr (mkTxData (VOTE library) (delegates body) account kp
                 (deriveSecondKeypair library body requester) (Some kp)),
     afterRequester library kp (afterTarget library target n)).
Proof.
  intros Ht Hacc Hpk Hms Hin Hreq Hrpk. enter_delegated Ht Hacc Hpk.
  rewrite Hms, Hin. rewrite getAccount_buffer.
  unfold resolves, generateAddressByPublicKey in Hreq.
  cbn [world record]. rewrite Hreq, Hrpk. cbn [negb].
  destruct (secondSignature requester && negb (truthy (secondSecret body)));
    [reflexivity|].
  destruct (strictEq (publicKey requester) (publicKey account)); reflexivity.
Qed.

Lemma strictEq_refl v : strictEq v v = true.
Proof. destruct v as [s|]; cbn; [apply String.eqb_refl | reflexivity]. Qed.

Lemma strictEq_neq a b : a <> b -> strictEq a b = false.
Proof.
  destruct a as [x|], b as [y|]; cbn; intros H; try reflexivity.
  - apply String.eqb_neq. intros ->. now apply H.
  - now elim H.
Qed.

Lemma indexOf_lt_0_In members x :
  indexOf_lt_0 members x = false <-> In x members.
Proof.
  unfold indexOf_lt_0. rewrite negb_false_iff, existsb_exists. split.
  - intros [y [Hy E]]. apply String.eqb_eq in E. now subst.
  - intros H. exists x. split; [assumption | apply String.eqb_refl].
Qed.

Lemma indexOf_lt_0_not_In members x :
  indexOf_lt_0 members x = true <-> ~ In x members.
Proof.
  rewrite <- indexOf_lt_0_In. destruct (indexOf_lt_0 members x); split;
    congruence.
Qed.

(** C2, as the code has it: in the delegated path, when the target account
    is found with a [multisignatures] array that holds the signer's key,
    the requester account is found and is not missing a second
    passphrase, and the public key of the requester account equals the
    public key of the target account, the request is rejected with
    ["Invalid requester public key"] (InvalidRequester).  The check is the
    last one of the path: the earlier ones take precedence. *)
Theorem addDelegates_invalid_requester
    body n target account members requester :
  admitted library body ->
  delegatedTarget body (deriveKeypair library body) = Some target ->
  resolves library (HexString target) (world n) account ->
  truthy (publicKey account) = true ->
  multisignatures account = Some members ->
  In (signerKey library body) members ->
  resolves library (BufferValue (kp_publicKey (deriveKeypair library body)))
    (world n) requester ->
  truthy (publicKey requester) = true ->
  secondSignature requester && negb (truthy (secondSecret body)) = false ->
  publicKey requester = publicKey account ->
  addDelegates library body n =
    (inl "Invalid requester public key",
     afterRequester library (deriveKeypair library body) (afterTarget library target n)).
Proof.
  intros Ha Hd Hacc Hpk Hms Hin Hreq Hrpk Hsec Heq.
  apply addDelegates_rejected; [assumption|].
  rewrite (resolve_delegated _ _ _ Hd).
  apply delegatedTarget_Some in Hd as (_ & Ht & _).
  apply indexOf_lt_0_In in Hin.
  rewrite (resolveDelegated_member _ _ _ _ _ _ _ Ht Hacc Hpk Hms Hin Hreq Hrpk).
  rewrite Hsec, Heq, strictEq_refl. reflexivity.
Qed.

(** C5, as the code has it: in the delegated path, a target account that
    is found with a non-empty [multisignatures] group that does not hold
    the signer's derived public key is rejected with
    ["Account does not belong to multisignature group"]
    (UnauthorizedSigner), whatever the store holds for the requester. *)
Theorem addDelegates_unauthorized_signer body n target account :
  admitted library body ->
  delegatedTarget body (deriveKeypair library body) = Some target ->
  resolves library (HexString target) (world n) account ->
  truthy (publicKey account) = true ->
  multisignaturesOrEmpty account <> [] ->
  ~ In (signerKey library body) (multisignaturesOrEmpty account) ->
  addDelegates library body n =
    (inl "Account does not belong to multisignature group",
     afterTarget library target n).
Proof.
  intros Ha Hd Hacc Hpk Hne Hout.
  apply addDelegates_rejected; [assumption|].
  rewrite (resolve_delegated _ _ _ Hd).
  apply delegatedTarget_Some in Hd as (_ & Ht & _).
  unfold multisignaturesOrEmpty in Hne, Hout.
  destruct (multisignatures account) as [members|] eqn:Hms; [|now elim Hne].
  apply indexOf_lt_0_not_In in Hout.
  exact (resolveDelegated_outsider _ _ _ _ _ _ Ht Hacc Hpk Hms Hout).
Qed.

(** A target account that is found without a [multisignatures] property
    is rejected with ["Account does not have multisignatures enabled"]
    (NotMultisigAccount). *)
Lemma addDelegates_not_multisig body n target account :
  admitted library body ->
  delegatedTarget body (deriveKeypair library body) = Some target ->
  resolves library (HexString target) (world n) account ->
  truthy (publicKey account) = true ->
  multisignatures account = None ->
  addDelegates library body n =
    (inl "Account does not have multisignatures enabled",
     afterTarget library target n).
Proof.
  intros Ha Hd Hacc Hpk Hms.
  apply addDelegates_rejected; [assumption|].
  rewrite (resolve_delegated _ _ _ Hd).
  apply delegatedTarget_Some in Hd as (_ & Ht & _).
  exact (resolveDelegated_not_enabled _ _ _ _ _ Ht Hacc Hpk Hms).
Qed.

(** A target account that is found with an empty [multisignatures] array
    passes the guard of line 283 and is refused by the membership test. *)
Lemma addDelegates_empty_array body n target account :
  admitted library body ->
  delegatedTarget body (deriveKeypair library body) = Some target ->
  resolves library (HexString target) (world n) account ->
  truthy (publicKey account) = true ->
  multisignatures account = Some [] ->
  addDelegates library body n =
    (inl "Account does not belong to multisignature group",
     afterTarget library target n).
Proof.
  intros Ha Hd Hacc Hpk Hms.
  apply addDelegates_rejected; [assumption|].
  rewrite (resolve_delegated _ _ _ Hd).
  apply delegatedTarget_Some in Hd as (_ & Ht & _).
  exact (resolveDelegated_outsider _ _ _ _ _ _ Ht Hacc Hpk Hms eq_refl).
Qed.

(** ** [shared.addDelegates]: the direct path *)

(** C6: in the direct path, when the signer's account is resolved with
    [secondSignature] set and the request carries no second passphrase,
    the request is rejected with ["Invalid second passphrase"]
    (MissingSecondFactor); the list of votes plays no part. *)
Theorem addDelegates_missing_second_passphrase body n account n' :
  admitted library body ->
  delegatedTarget body (deriveKeypair library body) = None ->
  setAccountAndGet library (signerData (deriveKeypair library body)) n
    = (inr (Some account), n') ->
  truthy (publicKey account) = true ->
  secondSignature account = true ->
  truthy (secondSecret body) = false ->
  addDelegates library body n = (inl "Invalid second passphrase", n').
Proof.
  intros Ha Hd Hset Hpk Hsec Hnone.
  apply addDelegates_rejected; [assumption|].
  rewrite (resolve_direct _ _ Hd). unfold resolveDirect.
  rewrite (bind_ret _ _ _ _ _ Hset), Hpk, Hsec, Hnone. reflexivity.
Qed.

(** ** The store during the resolve and authorize phase *)

(** What [setAccountAndGet] does to the node once it has an address: one
    write, then one read unless the write failed. *)
Lemma setAccountAndGet_publicKey pk n :
  pk <> "" ->
  getAddress library (HexString pk) <> "" ->
  let address := getAddress library (HexString pk) in
  let data := mkAccountData None (Some pk) in
  exists reads,
    world (snd (setAccountAndGet library data n))
      = snd (account_set library address data (world n))
    /\ calls (snd (setAccountAndGet library data n))
       = (calls n ++ AccountSet address data :: reads)%list
    /\ forallb isStoreRead reads = true.
Proof.
  intros Hpk Haddr address data. unfold setAccountAndGet.
  cbn [data_address data_publicKey data whenTruthy].
  apply String.eqb_neq in Hpk. rewrite Hpk.
  unfold generateAddressByPublicKey. fold address.
  apply String.eqb_neq in Haddr. fold address in Haddr. rewrite Haddr.
  unfold bind, logic_account_set, logic_account_get. subst data.
  destruct (account_set library address (mkAccountData None (Some pk)) (world n))
    as [[err|] w] eqn:Hset.
  - exists []. cbn. auto.
  - exists [AccountGet (addressFilter address)]. cbn.
    rewrite <- app_assoc. auto.
Qed.

(** The delegated path only reads the store. *)
Lemma resolveDelegated_reads body kp target n :
  exists reads,
    world (snd (resolveDelegated library body kp target n)) = world n
    /\ calls (snd (resolveDelegated library body kp target n))
       = (calls n ++ reads)%list
    /\ forallb isStoreRead reads = true.
Proof.
  unfold resolveDelegated, bind.
  assert (Hget : forall f m,
    exists c, snd (getAccount library f m) = record c m /\ isStoreRead c = true
              /\ fst (getAccount library f m)
                 = account_get library
                     (match c with AccountGet g => g | _ => f end) (world m)).
  { intros f m. unfold getAccount.
    destruct (whenTruthyKey (f_publicKey f)); eexists; cbn; eauto. }
  destruct (Hget (mkFilter None (Some (HexString target))) n)
    as (c1 & Hn1 & Hc1 & _).
  destruct (getAccount library (mkFilter None (Some (HexString target))) n)
    as [[err|[account|]] n1] eqn:E1; cbn [snd] in Hn1; subst n1;
    try (exists [c1]; cbn; rewrite Hc1; now auto).
  destruct (negb (truthy (publicKey account)));
    try (exists [c1]; cbn; rewrite Hc1; now auto).
  destruct (multisignatures account) as [members|];
    try (exists [c1]; cbn; rewrite Hc1; now auto).
  destruct (indexOf_lt_0 members (toHex (kp_publicKey kp)));
    try (exists [c1]; cbn; rewrite Hc1; now auto).
  destruct (Hget (mkFilter None (Some (BufferValue (kp_publicKey kp))))
              (record c1 n)) as (c2 & Hn2 & Hc2 & _).
  assert (Hboth : forall r : string + TxData,
    exists reads,
      world (snd (r, record c2 (record c1 n))) = world n
      /\ calls (snd (r, record c2 (record c1 n))) = (calls n ++ reads)%list
      /\ forallb isStoreRead reads = true).
  { intros r. exists [c1; c2]. cbn. rewrite Hc1, Hc2, <- app_assoc. auto. }
  destruct (getAccount library
              (mkFilter None (Some (BufferValue (kp_publicKey kp)))) (record c1 n))
    as [[err|[requester|]] n2] eqn:E2; cbn [snd] in Hn2; subst n2;
    try apply Hboth.
  destruct (negb (truthy (publicKey requester))); try apply Hboth.
  destruct (secondSignature requester && negb (truthy (secondSecret body)));
    try apply Hboth.
  destruct (strictEq (publicKey requester) (publicKey account)); apply Hboth.
Qed.

(** The checks of the direct path leave the node as [setAccountAndGet]
    left it. *)
Lemma resolveDirect_node body kp n :
  snd (resolveDirect library body kp n)
  = snd (setAccountAndGet library (signerData kp) n).
Proof.
  unfold resolveDirect, bind.
  destruct (setAccountAndGet library (signerData kp) n)
    as [[err|[account|]] n1]; try reflexivity.
  destruct (negb (truthy (publicKey account))); try reflexivity.
  destruct (secondSignature account && negb (truthy (secondSecret body)));
    reflexivity.
Qed.

(** C3, as the code has it: in the delegated path the resolve and
    authorize phase only reads the store, whatever its outcome, and the
    store is left unchanged; in the direct path the signer's account is
    resolved through [setAccountAndGet], which first writes the signer's
    public key under the derived address ([library.logic.account.set]) and
    then reads the record back. *)
Theorem resolve_store_access :
  (forall body kp target n,
      delegatedTarget body kp = Some target ->
      exists reads,
        world (snd (resolve library body kp n)) = world n
        /\ calls (snd (resolve library body kp n)) = (calls n ++ reads)%list
        /\ forallb isStoreRead reads = true)
  /\ (forall body kp n,
      delegatedTarget body kp = None ->
      toHex (kp_publicKey kp) <> "" ->
      getAddress library (HexString (toHex (kp_publicKey kp))) <> "" ->
      let address := getAddress library (HexString (toHex (kp_publicKey kp))) in
      exists reads,
        world (snd (resolve library body kp n))
          = snd (account_set library address (signerData kp) (world n))
        /\ calls (snd (resolve library body kp n))
           = (calls n ++ AccountSet address (signerData kp) :: reads)%list
        /\ forallb isStoreRead reads = true).
Proof.
  split.
  - intros body kp target n Hd. rewrite (resolve_delegated _ _ _ Hd).
    apply resolveDelegated_reads.
  - intros body kp n Hd Hpk Haddr address. rewrite (resolve_direct _ _ Hd).
    rewrite resolveDirect_node.
    exact (setAccountAndGet_publicKey _ n Hpk Haddr).
Qed.

(** ** Build and dispatch *)

Lemma done_node res (n : Node World) : snd (done res n) = n.
Proof. destruct res; reflexivity. Qed.

(** A transaction that [create] builds is handed to the pool, once. *)
Lemma addDelegates_dispatch body n data n' trs :
  admitted library body ->
  resolve library body (deriveKeypair library body) n = (inr data, n') ->
  transaction_create library data = inr trs ->
  calls (snd (addDelegates library body n))
  = (calls n' ++ [TransactionCreate data; ReceiveTransactions [trs]])%list.
Proof.
  intros Ha Hr Hc. rewrite (addDelegates_planned _ _ _ _ Ha Hr).
  unfold bind, try_create. rewrite Hc.
  unfold modules_receiveTransactions. cbn [world record].
  destruct (receiveTransactions library [trs] (world n')) as [res w].
  rewrite done_node. cbn [calls record]. now rewrite <- app_assoc.
Qed.

Lemma transaction_create_built data :
  create_check library data = None ->
  exists trs,
    transaction_create library data = inr trs
    /\ requesterPublicKey trs
       = option_map (fun k => toHex (kp_publicKey k)) (requester data)
    /\ senderPublicKey trs = publicKey (sender data)
    /\ senderAddress trs = address (sender data).
Proof.
  intros H. unfold transaction_create. rewrite H.
  eexists. split; [reflexivity|]. cbn. auto.
Qed.

(** The direct path gives no requester to [create]. *)
Lemma resolveDirect_plan body kp n data n' :
  resolveDirect library body kp n = (inr data, n') ->
  requester data = None /\ keypair data = kp.
Proof.
  unfold resolveDirect, bind.
  destruct (setAccountAndGet library (signerData kp) n)
    as [[err|[account|]] n1]; try discriminate.
  destruct (negb (truthy (publicKey account))); try discriminate.
  destruct (secondSignature account && negb (truthy (secondSecret body)));
    try discriminate.
  intros [= <- _]. auto.
Qed.

(** C7: in the delegated path, when the target account is found with the
    signer's key in its [multisignatures] array and the requester account
    is found without a second signature, the transaction that is built
    and handed to the pool has the signer's public key as
    [requesterPublicKey] and the target account as its sender; in the
    direct path, the transaction that is built and handed to the pool has
    no requester. *)
Theorem built_transaction_requester :
  (forall body n target account members requester,
      let kp := deriveKeypair library body in
      let data :=
        mkTxData (VOTE library) (delegates body) account kp None (Some kp) in
      admitted library body ->
      delegatedTarget body kp = Some target ->
      resolves library (HexString target) (world n) account ->
      truthy (publicKey account) = true ->
      multisignatures account = Some members ->
      In (signerKey library body) members ->
      resolves library (BufferValue (kp_publicKey kp)) (world n) requester ->
      truthy (publicKey requester) = true ->
      secondSignature requester = false ->
      publicKey requester <> publicKey account ->
      create_check library data = None ->
      exists trs,
        transaction_create library data = inr trs
        /\ calls (snd (addDelegates library body n))
           = (calls (afterRequester library kp (afterTarget library target n))
              ++ [TransactionCreate data; ReceiveTransactions [trs]])%list
        /\ requesterPublicKey trs = Some (signerKey library body)
        /\ senderPublicKey trs = publicKey account
        /\ senderAddress trs = address account)
  /\ (forall body n data n',
      admitted library body ->
      delegatedTarget body (deriveKeypair library body) = None ->
      resolve library body (deriveKeypair library body) n = (inr data, n') ->
      create_check library data = None ->
      exists trs,
        transaction_create library data = inr trs
        /\ calls (snd (addDelegates library body n))
           = (calls n' ++ [TransactionCreate data; ReceiveTransactions [trs]])%list
        /\ requesterPublicKey trs = None).
Proof.
  split.
  - intros body n target account members requester kp data
      Ha Hd Hacc Hpk Hms Hin Hreq Hrpk Hsec Hneq Hc.
    assert (Hr : resolve library body kp n
                 = (inr data, afterRequester library kp (afterTarget library target n))).
    { rewrite (resolve_delegated _ _ _ Hd).
      apply delegatedTarget_Some in Hd as (_ & Ht & _).
      apply indexOf_lt_0_In in Hin.
      rewrite (resolveDelegated_member _ _ _ _ _ _ _ Ht Hacc Hpk Hms Hin Hreq Hrpk).
      rewrite Hsec, (strictEq_neq _ _ Hneq). cbn [andb].
      unfold deriveSecondKeypair. now rewrite Hsec. }
    destruct (transaction_create_built _ Hc) as (trs & Ht & Hrq & Hs & Hsa).
    exists trs. split; [assumption|]. split.
    + exact (addDelegates_dispatch _ _ _ _ _ Ha Hr Ht).
    + auto.
  - intros body n data n' Ha Hd Hr Hc.
    destruct (transaction_create_built _ Hc) as (trs & Ht & Hrq & _).
    exists trs. split; [assumption|]. split.
    + exact (addDelegates_dispatch _ _ _ _ _ Ha Hr Ht).
    + rewrite (resolve_direct _ _ Hd) in Hr.
      apply resolveDirect_plan in Hr as [Hn _]. now rewrite Hrq, Hn.
Qed.

(** The string that [toString] gives for an exception ends with its
    message. *)
Lemma toString_message e : exists prefix, toString e = prefix ++ exn_message e.
Proof.
  unfold toString. destruct (exn_message e =? "") eqn:E.
  - apply String.eqb_eq in E. rewrite E. exists (errorName (exn_name e)).
    induction (errorName (exn_name e)) as [|c s IH]; cbn;
      [reflexivity | now rewrite <- IH].
  - exists (errorName (exn_name e) ++ ": ").
    induction (errorName (exn_name e)) as [|c s IH]; cbn;
      [reflexivity | now rewrite <- IH].
Qed.

Lemma toString_nonempty e : toString e <> "".
Proof.
  unfold toString. destruct (exn_message e =? "");
    destruct (exn_name e); discriminate.
Qed.

(** C8: on either path, when [library.logic.transaction.create] throws,
    the request is answered with the exception's [toString()] as its
    error (BuildError), a non-empty string that ends with the exception's
    message; nothing is handed to the pool. *)
Theorem addDelegates_build_error body n data n' e :
  admitted library body ->
  resolve library body (deriveKeypair library body) n = (inr data, n') ->
  transaction_create library data = inl e ->
  addDelegates library body n
    = (inl (toString e), record (TransactionCreate data) n')
  /\ toString e <> ""
  /\ exists prefix, toString e = prefix ++ exn_message e.
Proof.
  intros Ha Hr Hc.
  split; [|split; [apply toString_nonempty | apply toString_message]].
  rewrite (addDelegates_planned _ _ _ _ Ha Hr).
  unfold bind, try_create. rewrite Hc. reflexivity.
Qed.

End Properties.

(** * Runs on the sample node *)

Import Devnet Samples.

Lemma getBalance_unknown_account_witness :
  getBalance library (mkGetBalanceBody "1xyzA") (start [])
  = (inr (mkBalances "0" "0"),
     mkNode ([], []) [AccountGet (addressFilter "1xyzA")]).
Proof.
  exact (getBalance_unknown_account World library
           (mkGetBalanceBody "1xyzA") (start []) eq_refl eq_refl eq_refl).
Defined.

(** C1: the target account of key ["02ff"] is found and its
    [multisignatures] array is empty; the request is answered with
    ["Account does not belong to multisignature group"]
    (UnauthorizedSigner), where NotMultisigAccount is expected. *)
Theorem addDelegates_empty_group :
  multisignaturesOrEmpty emptyGroup = []
  /\ resolves library (HexString "02ff")
       (world (start [entry emptyGroup; entry signer])) emptyGroup
  /\ fst (addDelegates library groupVote (start [entry emptyGroup; entry signer]))
     = inl "Account does not belong to multisignature group".
Proof. repeat split. Qed.

(** The same request on a target account that has no [multisignatures]
    property is answered with NotMultisigAccount. *)
Example addDelegates_without_group :
  fst (addDelegates library groupVote (start [entry plainTarget; entry signer]))
  = inl "Account does not have multisignatures enabled".
Proof. reflexivity. Qed.

(** C2 fails when an earlier check fires: the target account found for
    ["02ABC"] is the signer's own account, so its public key is the
    signer's derived public key, and the request is answered with
    ["Account does not have multisignatures enabled"]. *)
Lemma invalid_requester_preempted :
  delegatedTarget selfVote keys = Some "02ABC"
  /\ resolves library (HexString "02ABC") (world (start [entry signer])) signer
  /\ publicKey signer = Some (signerKey library selfVote)
  /\ fst (addDelegates library selfVote (start [entry signer]))
     = inl "Account does not have multisignatures enabled"
  /\ fst (addDelegates library selfVote (start [entry signer]))
     <> inl "Invalid requester public key".
Proof. repeat split. discriminate. Qed.

Lemma addDelegates_invalid_requester_witness :
  addDelegates library selfVote (start [entry selfGroup])
  = (inl "Invalid requester public key",
     afterRequester library keys (afterTarget library "02ABC" (start [entry selfGroup]))).
Proof.
  apply (addDelegates_invalid_requester World library selfVote
           (start [entry selfGroup]) "02ABC" selfGroup ["02abc"] selfGroup).
  - split; reflexivity.
  - reflexivity.
  - reflexivity.
  - reflexivity.
  - reflexivity.
  - simpl. auto.
  - reflexivity.
  - reflexivity.
  - reflexivity.
  - reflexivity.
Defined.

(** C3 fails in the direct path: resolving the signer's account on an
    empty ledger calls [library.logic.account.set], and the ledger holds a
    new record afterwards. *)
Lemma direct_resolution_writes :
  delegatedTarget directVote keys = None
  /\ existsb isStoreWrite
       (calls (snd (resolve library directVote keys (start [])))) = true
  /\ world (snd (resolve library directVote keys (start [])))
     <> world (start []).
Proof. repeat split. discriminate. Qed.

Lemma resolve_store_access_witness :
  (exists reads,
      world (snd (resolve library groupVote keys
                    (start [entry signerGroup; entry signer])))
        = world (start [entry signerGroup; entry signer])
      /\ calls (snd (resolve library groupVote keys
                       (start [entry signerGroup; entry signer])))
         = ([] ++ reads)%list
      /\ forallb isStoreRead reads = true)
  /\ (exists reads,
      world (snd (resolve library directVote keys (start [])))
        = snd (account_set library "02abcA" (signerData keys) ([], []))
      /\ calls (snd (resolve library directVote keys (start [])))
         = ([] ++ AccountSet "02abcA" (signerData keys) :: reads)%list
      /\ forallb isStoreRead reads = true).
Proof.
  split.
  - apply (proj1 (resolve_store_access World library) groupVote keys "02ff"
             (start [entry signerGroup; entry signer])).
    reflexivity.
  - apply (proj2 (resolve_store_access World library) directVote keys (start [])).
    + reflexivity.
    + discriminate.
    + discriminate.
Defined.

(** C4 fails on an empty [publicKey]: it differs from the derived public
    key, yet the check is skipped, the signer's account is resolved and
    the vote is accepted. *)
Lemma blank_public_key_not_checked :
  validate_addDelegates library blankKeyVote = None
  /\ body_publicKey blankKeyVote = Some ""
  /\ "" <> signerKey library blankKeyVote
  /\ fst (addDelegates library blankKeyVote (start []))
     <> inl "Invalid passphrase"
  /\ existsb isStoreRead
       (calls (snd (addDelegates library blankKeyVote (start [])))) = true.
Proof. repeat split; discriminate. Qed.

Lemma addDelegates_invalid_passphrase_witness :
  addDelegates library wrongKeyVote (start [entry signer])
  = (inl "Invalid passphrase", start [entry signer]).
Proof.
  apply (addDelegates_invalid_passphrase World library wrongKeyVote
           (start [entry signer]) "02zzz").
  - reflexivity.
  - reflexivity.
  - discriminate.
  - discriminate.
Defined.

(** C5 fails on a target account without a group: its group does not
    hold the signer's key, and the request is answered with
    ["Account does not have multisignatures enabled"]. *)
Lemma outsider_of_no_group :
  delegatedTarget groupVote keys = Some "02ff"
  /\ resolves library (HexString "02ff")
       (world (start [entry plainTarget; entry signer])) plainTarget
  /\ ~ In (signerKey library groupVote) (multisignaturesOrEmpty plainTarget)
  /\ fst (addDelegates library groupVote (start [entry plainTarget; entry signer]))
     = inl "Account does not have multisignatures enabled"
  /\ fst (addDelegates library groupVote (start [entry plainTarget; entry signer]))
     <> inl "Account does not belong to multisignature group".
Proof. repeat split; [intros [] | discriminate]. Qed.

Lemma addDelegates_unauthorized_signer_witness :
  addDelegates library groupVote (start [entry otherGroup; entry signer])
  = (inl "Account does not belong to multisignature group",
     afterTarget library "02ff" (start [entry otherGroup; entry signer])).
Proof.
  apply (addDelegates_unauthorized_signer World library groupVote
           (start [entry otherGroup; entry signer]) "02ff" otherGroup).
  - split; reflexivity.
  - reflexivity.
  - reflexivity.
  - reflexivity.
  - discriminate.
  - simpl. intros [H|[]]. discriminate H.
Defined.

Lemma addDelegates_missing_second_passphrase_witness :
  addDelegates library directVote (start [entry securedSigner])
  = (inl "Invalid second passphrase",
     snd (setAccountAndGet library (signerData keys) (start [entry securedSigner]))).
Proof.
  apply (addDelegates_missing_second_passphrase World library directVote
           (start [entry securedSigner]) securedSigner).
  - split; reflexivity.
  - reflexivity.
  - reflexivity.
  - reflexivity.
  - reflexivity.
  - reflexivity.
Defined.

Lemma built_transaction_requester_witness :
  (exists trs,
      transaction_create library
        (mkTxData 3 ["+02def"] signerGroup keys None (Some keys)) = inr trs
      /\ calls (snd (addDelegates library groupVote
                       (start [entry signerGroup; entry signer])))
         = (calls (afterRequester library keys
                     (afterTarget library "02ff"
                        (start [entry signerGroup; entry signer])))
            ++ [TransactionCreate
                  (mkTxData 3 ["+02def"] signerGroup keys None (Some keys));
                ReceiveTransactions [trs]])%list
      /\ requesterPublicKey trs = Some "02abc"
      /\ senderPublicKey trs = Some "02ff"
      /\ senderAddress trs = "02ffA")
  /\ (exists trs,
      transaction_create library
        (mkTxData 3 ["+02def"] signer keys None None) = inr trs
      /\ calls (snd (addDelegates library directVote (start [entry signer])))
         = (calls (snd (resolve library directVote keys (start [entry signer])))
            ++ [TransactionCreate (mkTxData 3 ["+02def"] signer keys None None);
                ReceiveTransactions [trs]])%list
      /\ requesterPublicKey trs = None).
Proof.
  split.
  - apply (proj1 (built_transaction_requester World library) groupVote
             (start [entry signerGroup; entry signer]) "02ff" signerGroup
             ["02abc"] signer).
    + split; reflexivity.
    + reflexivity.
    + reflexivity.
    + reflexivity.
    + reflexivity.
    + simpl. auto.
    + reflexivity.
    + reflexivity.
    + reflexivity.
    + discriminate.
    + reflexivity.
  - apply (proj2 (built_transaction_requester World library) directVote
             (start [entry signer])
             (mkTxData 3 ["+02def"] signer keys None None)
             (snd (resolve library directVote keys (start [entry signer])))).
    + split; reflexivity.
    + reflexivity.
    + reflexivity.
    + reflexivity.
Defined.

Lemma addDelegates_build_error_witness :
  addDelegates library emptyVote (start [entry signer])
  = (inl "Error: Invalid votes. Must not be empty",
     record (TransactionCreate (mkTxData 3 [] signer keys None None))
       (snd (resolve library emptyVote keys (start [entry signer]))))
  /\ "Error: Invalid votes. Must not be empty" <> ""
  /\ exists prefix,
      "Error: Invalid votes. Must not be empty"
      = prefix ++ "Invalid votes. Must not be empty".
Proof.
  apply (addDelegates_build_error World library emptyVote
           (start [entry signer])
           (mkTxData 3 [] signer keys None None)
           (snd (resolve library emptyVote keys (start [entry signer])))
           (mkException EError "Invalid votes. Must not be empty")).
  - split; reflexivity.
  - reflexivity.
  - reflexivity.
Defined.

(** * Further properties *)

(** ** The address pattern, in full *)

Lemma list_ascii_of_string_app a b :
  list_ascii_of_string (a ++ b)
  = (list_ascii_of_string a ++ list_ascii_of_string b)%list.
Proof. induction a as [|c a IH]; cbn; [reflexivity | now rewrite IH]. Qed.

Lemma string_of_list_ascii_app l m :
  string_of_list_ascii (l ++ m)
  = string_of_list_ascii l ++ string_of_list_ascii m.
Proof. induction l as [|c l IH]; cbn; [reflexivity | now rewrite IH]. Qed.

Lemma length_list_ascii_of_string s :
  List.length (list_ascii_of_string s) = String.length s.
Proof. induction s as [|c s IH]; cbn; [reflexivity | now rewrite IH]. Qed.

(** X1: the address pattern accepts exactly the strings made of one to
    fifty-two characters of the class [[1-9A-Za-z]] followed by a final
    [A]. *)
Theorem isAddress_iff s :
  isAddress s = true <->
  exists front,
    s = front ++ "A"
    /\ 1 <= String.length front <= 52
    /\ forall c, In c (list_ascii_of_string front) -> isAddressChar c = true.
Proof.
  unfold isAddress. split.
  - destruct (rev (list_ascii_of_string s)) as [|c fr] eqn:E; [discriminate|].
    rewrite !andb_true_iff. intros [[[Hc Hlo] Hhi] Hall].
    apply Ascii.eqb_eq in Hc. subst c.
    apply Nat.leb_le in Hlo, Hhi.
    assert (Hs : list_ascii_of_string s = (rev fr ++ ["A"%char])%list).
    { rewrite <- (rev_involutive (list_ascii_of_string s)), E. reflexivity. }
    exists (string_of_list_ascii (rev fr)). split; [|split].
    + rewrite <- (string_of_list_ascii_of_string s), Hs.
      now rewrite string_of_list_ascii_app.
    + rewrite <- length_list_ascii_of_string, list_ascii_of_string_of_list_ascii,
        length_rev. now split.
    + intros c Hin. rewrite list_ascii_of_string_of_list_ascii in Hin.
      apply in_rev in Hin. rewrite forallb_forall in Hall. now apply Hall.
  - intros (front & -> & [Hlo Hhi] & Hall).
    rewrite list_ascii_of_string_app, rev_app_distr. cbn [list_ascii_of_string rev app].
    rewrite length_rev, length_list_ascii_of_string.
    rewrite !andb_true_iff. repeat split.
    + now apply Nat.leb_le.
    + now apply Nat.leb_le.
    + apply forallb_forall. intros c Hin. apply Hall. now apply in_rev.
Qed.

Section MoreProperties.

Variable World : Type.
Variable library : Scope World.

(** ** [Accounts.prototype.getAccount] *)

(** X2: [getAccount] makes one read of the store, and the filter that
    reaches the store never carries a truthy [publicKey]: a truthy public
    key is replaced by the address derived from it, which also overrides
    an address given in the same filter; any other filter goes to the
    store as it is. *)
Theorem getAccount_filter f n :
  exists g,
    getAccount library f n
    = (account_get library g (world n), record (AccountGet g) n)
    /\ whenTruthyKey (f_publicKey g) = None
    /\ match whenTruthyKey (f_publicKey f) with
       | Some k => g = addressFilter (getAddress library k)
       | None => g = f
       end.
Proof.
  unfold getAccount. destruct (whenTruthyKey (f_publicKey f)) as [k|] eqn:E.
  - eexists. split; [reflexivity|]. split; reflexivity.
  - exists f. split; [reflexivity|]. split; [assumption | reflexivity].
Qed.

(** ** [Accounts.prototype.setAccountAndGet] *)

(** X3: [setAccountAndGet] either fails before touching the store (no
    truthy address or public key: ["Missing address or public key"]; an
    empty derived address: ["Invalid public key"]), or writes once at a
    non-empty address, the given one before the derived one.  A failed
    write is the answer and nothing is read; after a successful write the
    same address is read back, once, from the store as written. *)
Theorem setAccountAndGet_store_access data n :
  (setAccountAndGet library data n = (inl "Missing address or public key", n)
   /\ whenTruthy (data_address data) = None
   /\ whenTruthy (data_publicKey data) = None)
  \/ (setAccountAndGet library data n = (inl "Invalid public key", n)
      /\ whenTruthy (data_address data) = None
      /\ exists pk, whenTruthy (data_publicKey data) = Some pk
                    /\ getAddress library (HexString pk) = "")
  \/ exists a,
      a <> ""
      /\ (whenTruthy (data_address data) = Some a
          \/ (whenTruthy (data_address data) = None
              /\ exists pk, whenTruthy (data_publicKey data) = Some pk
                            /\ a = getAddress library (HexString pk)))
      /\ ((exists err w,
              account_set library a data (world n) = (Some err, w)
              /\ setAccountAndGet library data n
                 = (inl err, mkNode w (calls n ++ [AccountSet a data])))
          \/ (exists w,
                 account_set library a data (world n) = (None, w)
                 /\ setAccountAndGet library data n
                    = (account_get library (addressFilter a) w,
                       mkNode w (calls n ++ [AccountSet a data;
                                             AccountGet (addressFilter a)])))).
Proof.
  assert (Hgo : forall a, a <> "" ->
    (exists err w,
        account_set library a data (world n) = (Some err, w)
        /\ bind (logic_account_set library a data)
             (fun _ => logic_account_get library (addressFilter a)) n
           = (inl err, mkNode w (calls n ++ [AccountSet a data])))
    \/ (exists w,
        account_set library a data (world n) = (None, w)
        /\ bind (logic_account_set library a data)
             (fun _ => logic_account_get library (addressFilter a)) n
           = (account_get library (addressFilter a) w,
              mkNode w (calls n ++ [AccountSet a data;
                                    AccountGet (addressFilter a)])))).
  { intros a _. unfold bind, logic_account_set, logic_account_get.
    destruct (account_set library a data (world n)) as [[err|] w].
    - left. exists err, w. auto.
    - right. exists w. split; [reflexivity|]. cbn. unfold record. cbn.
      now rewrite <- app_assoc. }
  unfold setAccountAndGet.
  destruct (whenTruthy (data_address data)) as [a|] eqn:Ea.
  - right. right. exists a.
    destruct (whenTruthy_Some _ _ Ea) as [_ Hne].
    split; [assumption|]. split; [now left|].
    apply String.eqb_neq in Hne as Hb. rewrite Hb. now apply Hgo.
  - destruct (whenTruthy (data_publicKey data)) as [pk|] eqn:Ek.
    + unfold generateAddressByPublicKey.
      destruct (String.eqb_spec (getAddress library (HexString pk)) "") as [E|Hne].
      * right. left. split; [reflexivity|]. split; [reflexivity|]. now exists pk.
      * right. right. exists (getAddress library (HexString pk)).
        split; [assumption|]. split.
        -- right. split; [reflexivity|]. now exists pk.
        -- now apply Hgo.
    + left. auto.
Qed.

(** ** [shared.getBalance], every outcome *)

(** X4: whatever its outcome, [getBalance] leaves the store as it was and
    makes at most one read, at the address of the request, and only when
    the request passed the schema and the address pattern. *)
Theorem getBalance_read_only body n :
  world (snd (getBalance library body n)) = world n
  /\ (calls (snd (getBalance library body n)) = calls n
      \/ (validate_getBalance library body = None
          /\ isAddress (gb_address body) = true
          /\ calls (snd (getBalance library body n))
             = (calls n ++ [AccountGet (addressFilter (gb_address body))])%list)).
Proof.
  unfold getBalance.
  destruct (validate_getBalance library body); [cbn; auto|].
  destruct (isAddress (gb_address body)); [|cbn; auto]. cbn [negb].
  unfold bind, getAccount. cbn [addressFilter f_publicKey whenTruthyKey].
  unfold logic_account_get.
  destruct (account_get library _ (world n)) as [err|found]; cbn; auto.
Qed.

(** X5: [getBalance] succeeds exactly when the request passes the schema,
    the address matches the pattern and the store answers without error;
    it then reports the balance and unconfirmed balance of the account
    found, or ["0"] and ["0"] when there is none. *)
Theorem getBalance_answers body n reply :
  fst (getBalance library body n) = inr reply <->
  validate_getBalance library body = None
  /\ isAddress (gb_address body) = true
  /\ exists found,
      account_get library (addressFilter (gb_address body)) (world n) = inr found
      /\ reply = match found with
                 | Some account => mkBalances (balance account) (u_balance account)
                 | None => mkBalances "0" "0"
                 end.
Proof.
  unfold getBalance.
  destruct (validate_getBalance library body) as [issues|].
  { split; [discriminate | intros [H _]; discriminate]. }
  destruct (isAddress (gb_address body)).
  2:{ split; [discriminate | intros (_ & H & _); discriminate]. }
  cbn [negb]. unfold bind, getAccount.
  cbn [addressFilter f_publicKey whenTruthyKey]. unfold logic_account_get.
  fold (addressFilter (gb_address body)).
  destruct (account_get library (addressFilter (gb_address body)) (world n))
    as [err|found].
  - split; [discriminate | intros (_ & _ & f & H & _); discriminate].
  - split.
    + intros H. repeat split. exists found. split; [reflexivity|].
      destruct found; cbn in H; congruence.
    + intros (_ & _ & f & [= <-] & ->). now destruct found.
Qed.

Lemma truthy_Some v : truthy v = true -> exists s, v = Some s /\ s <> "".
Proof.
  destruct v as [s|]; cbn; [|discriminate]. intros H. exists s.
  split; [reflexivity|]. apply String.eqb_neq. now destruct (s =? "").
Qed.

(** ** What a plan guarantees *)

(** X6: in the delegated path, a plan comes out of the resolve and
    authorize phase only when the target account is in the store with a
    public key and a [multisignatures] array that holds the signer's key,
    and the requester account is in the store with a public key other
    than the target's and, if it has a second signature, with a second
    passphrase in the request.  The plan has the target account as
    sender and the signer's keypair as keypair and requester, and the two
    lookups are all that happened. *)
Theorem delegated_plan_authorized body kp target n data n' :
  delegatedTarget body kp = Some target ->
  resolve library body kp n = (inr data, n') ->
  exists members requester,
    resolves library (HexString target) (world n) (sender data)
    /\ truthy (publicKey (sender data)) = true
    /\ multisignatures (sender data) = Some members
    /\ In (toHex (kp_publicKey kp)) members
    /\ resolves library (BufferValue (kp_publicKey kp)) (world n) requester
    /\ truthy (publicKey requester) = true
    /\ publicKey requester <> publicKey (sender data)
    /\ (secondSignature requester = true -> truthy (secondSecret body) = true)
    /\ data = mkTxData (VOTE library) (delegates body) (sender data) kp
                (deriveSecondKeypair library body requester) (Some kp)
    /\ n' = afterRequester library kp (afterTarget library target n).
Proof.
  intros Hd. rewrite (resolve_delegated _ _ _ _ _ Hd).
  apply delegatedTarget_Some in Hd as (_ & Ht & _).
  unfold resolveDelegated, bind. rewrite (getAccount_target _ _ _ _ Ht).
  destruct (account_get library _ (world n)) as [err|[account|]] eqn:Ha;
    try discriminate.
  destruct (truthy (publicKey account)) eqn:Hpk; cbn [negb]; try discriminate.
  destruct (multisignatures account) as [members|] eqn:Hms; try discriminate.
  destruct (indexOf_lt_0 members (toHex (kp_publicKey kp))) eqn:Hin;
    try discriminate.
  rewrite getAccount_buffer. cbn [world record].
  destruct (account_get library
              (addressFilter (getAddress library (BufferValue (kp_publicKey kp))))
              (world n)) as [err|[requester|]] eqn:Hr; try discriminate.
  destruct (truthy (publicKey requester)) eqn:Hrpk; cbn [negb]; try discriminate.
  destruct (secondSignature requester && negb (truthy (secondSecret body)))
    eqn:Hsec; try discriminate.
  destruct (strictEq (publicKey requester) (publicKey account)) eqn:Heq;
    try discriminate.
  intros [= <- <-]. cbn [sender]. exists members, requester.
  repeat split; try assumption; try reflexivity.
  - now apply indexOf_lt_0_In.
  - intros E. rewrite E, strictEq_refl in Heq. discriminate.
  - intros E. rewrite E in Hsec. cbn in Hsec.
    now destruct (truthy (secondSecret body)).
Qed.

(** X7: in the direct path, a plan comes out of the resolve and authorize
    phase only for the account that [setAccountAndGet] returned, with a
    public key; it has no requester, and its second keypair is the one
    derived from the non-empty second passphrase of the request when the
    account has a second signature, and none otherwise. *)
Theorem direct_plan_second_factor body kp n data n' :
  delegatedTarget body kp = None ->
  resolve library body kp n = (inr data, n') ->
  setAccountAndGet library (signerData kp) n = (inr (Some (sender data)), n')
  /\ truthy (publicKey (sender data)) = true
  /\ requester data = None
  /\ keypair data = kp
  /\ votes data = delegates body
  /\ (if secondSignature (sender data)
      then exists s,
          secondSecret body = Some s /\ s <> ""
          /\ secondKeypair data
             = Some (makeKeypair library (sha256 library s))
      else secondKeypair data = None).
Proof.
  intros Hd. rewrite (resolve_direct _ _ _ _ Hd). unfold resolveDirect, bind.
  destruct (setAccountAndGet library (signerData kp) n)
    as [[err|[account|]] n1]; try discriminate.
  destruct (truthy (publicKey account)) eqn:Hpk; cbn [negb]; try discriminate.
  destruct (secondSignature account && negb (truthy (secondSecret body)))
    eqn:Hsec; try discriminate.
  intros [= <- <-]. cbn [sender requester keypair votes secondKeypair].
  repeat split; try assumption.
  unfold deriveSecondKeypair.
  destruct (secondSignature account); [|reflexivity].
  cbn in Hsec. apply negb_false_iff in Hsec.
  destruct (truthy_Some _ Hsec) as (s & -> & Hne). exists s. auto.
Qed.

(** ** Build and dispatch, every outcome *)

Lemma getAccount_read f (n : Node World) :
  exists c, snd (getAccount library f n) = record c n /\ isStoreRead c = true.
Proof.
  unfold getAccount. destruct (whenTruthyKey (f_publicKey f));
    eexists; cbn; eauto.
Qed.

Lemma setAccountAndGet_calls data (n : Node World) :
  exists stores,
    calls (snd (setAccountAndGet library data n)) = (calls n ++ stores)%list
    /\ forallb isStoreCall stores = true.
Proof.
  assert (Hgo : forall a,
    exists stores,
      calls (snd (bind (logic_account_set library a data)
                    (fun _ => logic_account_get library (addressFilter a)) n))
      = (calls n ++ stores)%list
      /\ forallb isStoreCall stores = true).
  { intros a. unfold bind, logic_account_set, logic_account_get.
    destruct (account_set library a data (world n)) as [[err|] w].
    - exists [AccountSet a data]. auto.
    - exists [AccountSet a data; AccountGet (addressFilter a)]. cbn.
      now rewrite <- app_assoc. }
  assert (Hno : forall r : string + option Account,
    exists stores,
      calls (snd (r, n)) = (calls n ++ stores)%list
      /\ forallb isStoreCall stores = true).
  { intros r. exists []. cbn. now rewrite app_nil_r. }
  unfold setAccountAndGet.
  destruct (whenTruthy (data_address data)) as [a|].
  - destruct (a =? ""); [apply Hno | apply Hgo].
  - destruct (whenTruthy (data_publicKey data)) as [pk|]; [|apply Hno].
    destruct (generateAddressByPublicKey library (HexString pk) =? "");
      [apply Hno | apply Hgo].
Qed.

Lemma resolve_calls body kp (n : Node World) :
  exists stores,
    calls (snd (resolve library body kp n)) = (calls n ++ stores)%list
    /\ forallb isStoreCall stores = true.
Proof.
  unfold resolve. destruct (delegatedTarget body kp) as [target|].
  - destruct (resolveDelegated_reads _ library body kp target n)
      as (reads & _ & Hc & Hr).
    exists reads. split; [assumption|].
    rewrite forallb_forall in *. intros c Hin. unfold isStoreCall.
    now rewrite (Hr c Hin).
  - rewrite resolveDirect_node. apply setAccountAndGet_calls.
Qed.

(** X8: a request makes calls to the store, then at most one call to
    [library.logic.transaction.create], then at most one call to the pool;
    the pool is only ever given the single transaction that [create] has
    just built. *)
Theorem addDelegates_dispatch_once body n :
  exists stores,
    forallb isStoreCall stores = true
    /\ (calls (snd (addDelegates library body n)) = (calls n ++ stores)%list
        \/ (exists data e,
               transaction_create library data = inl e
               /\ calls (snd (addDelegates library body n))
                  = (calls n ++ stores ++ [TransactionCreate data])%list)
        \/ (exists data trs,
               transaction_create library data = inr trs
               /\ calls (snd (addDelegates library body n))
                  = (calls n ++ stores
                     ++ [TransactionCreate data; ReceiveTransactions [trs]])%list)).
Proof.
  unfold addDelegates.
  destruct (validate_addDelegates library body) as [issues|].
  { exists []. split; [reflexivity|]. left. cbn. now rewrite app_nil_r. }
  cbv zeta.
  destruct (publicKeyMismatch body (deriveKeypair library body)).
  { exists []. split; [reflexivity|]. left. cbn. now rewrite app_nil_r. }
  unfold balancesSequence_add, worker, bind.
  destruct (resolve_calls body (deriveKeypair library body) n)
    as (stores & Hc & Hs).
  exists stores. split; [assumption|].
  destruct (resolve library body (deriveKeypair library body) n)
    as [[err|data] n1]; cbn [snd] in Hc.
  { left. cbn. assumption. }
  unfold try_create.
  destruct (transaction_create library data) as [e|trs] eqn:Hb.
  { right. left. exists data, e. split; [assumption|]. cbn.
    now rewrite Hc, <- app_assoc. }
  right. right. exists data, trs. split; [assumption|].
  unfold modules_receiveTransactions. cbn [world record].
  destruct (receiveTransactions library [trs] (world n1)) as [res w].
  rewrite done_node. cbn. rewrite Hc. now rewrite <- !app_assoc.
Qed.

(** X9: once the transaction is built, the answer of the request is the
    answer of the pool: its error, or the first of the transactions it
    returns; and the state of the node is the one the pool leaves. *)
Theorem addDelegates_pool_answer body n data n' trs :
  admitted library body ->
  resolve library body (deriveKeypair library body) n = (inr data, n') ->
  transaction_create library data = inr trs ->
  fst (addDelegates library body n)
  = match fst (receiveTransactions library [trs] (world n')) with
    | inl err => inl err
    | inr accepted => inr (mkSubmitted (hd_error accepted))
    end
  /\ world (snd (addDelegates library body n))
     = snd (receiveTransactions library [trs] (world n')).
Proof.
  intros Ha Hr Hb. rewrite (addDelegates_planned _ _ _ _ _ _ Ha Hr).
  unfold bind, try_create. rewrite Hb.
  unfold modules_receiveTransactions. cbn [world record].
  destruct (receiveTransactions library [trs] (world n')) as [[err|accepted] w];
    cbn; auto.
Qed.

(** ** The other rejections *)

(** X10: in the delegated path, when the store has no account for the
    target key, or has one without a public key, the request is rejected
    with ["Multisignature account not found"] after that single read. *)
Theorem addDelegates_target_not_found body n target :
  admitted library body ->
  delegatedTarget body (deriveKeypair library body) = Some target ->
  account_get library
    (addressFilter (getAddress library (HexString target))) (world n) = inr None
  \/ (exists account,
         resolves library (HexString target) (world n) account
         /\ truthy (publicKey account) = false) ->
  addDelegates library body n
  = (inl "Multisignature account not found", afterTarget library target n).
Proof.
  intros Ha Hd Hmiss. apply addDelegates_rejected; [assumption|].
  rewrite (resolve_delegated _ _ _ _ _ Hd).
  apply delegatedTarget_Some in Hd as (_ & Ht & _).
  unfold resolveDelegated, bind. rewrite (getAccount_target _ _ _ _ Ht).
  destruct Hmiss as [Hnone|(account & Hacc & Hpk)].
  - now rewrite Hnone.
  - unfold resolves, generateAddressByPublicKey in Hacc.
    now rewrite Hacc, Hpk.
Qed.

(** X11: in the delegated path, when the signer is a member of the
    target's group but the store has no account for the signer's key, or
    has one without a public key, the request is rejected with
    ["Requester not found"]. *)
Theorem addDelegates_requester_not_found body n target account members :
  admitted library body ->
  delegatedTarget body (deriveKeypair library body) = Some target ->
  resolves library (HexString target) (world n) account ->
  truthy (publicKey account) = true ->
  multisignatures account = Some members ->
  In (signerKey library body) members ->
  account_get library
    (addressFilter
       (getAddress library
          (BufferValue (kp_publicKey (deriveKeypair library body)))))
    (world n) = inr None
  \/ (exists requester,
         resolves library
           (BufferValue (kp_publicKey (deriveKeypair library body)))
           (world n) requester
         /\ truthy (publicKey requester) = false) ->
  addDelegates library body n
  = (inl "Requester not found",
     afterRequester library (deriveKeypair library body)
       (afterTarget library target n)).
Proof.
  intros Ha Hd Hacc Hpk Hms Hin Hmiss.
  apply addDelegates_rejected; [assumption|].
  rewrite (resolve_delegated _ _ _ _ _ Hd).
  apply delegatedTarget_Some in Hd as (_ & Ht & _).
  unfold resolveDelegated, bind. rewrite (getAccount_target _ _ _ _ Ht).
  unfold resolves, generateAddressByPublicKey in Hacc.
  rewrite Hacc, Hpk, Hms. cbn [negb].
  apply indexOf_lt_0_In in Hin. unfold signerKey in Hin. rewrite Hin.
  rewrite getAccount_buffer. cbn [world record].
  destruct Hmiss as [Hnone|(requester & Hreq & Hrpk)].
  - now rewrite Hnone.
  - unfold resolves, generateAddressByPublicKey in Hreq.
    now rewrite Hreq, Hrpk.
Qed.

(** X12: in the delegated path, a requester account with a second
    signature and no second passphrase in the request is rejected with
    ["Missing requester second passphrase"], also when its public key is
    the target's: this check comes before the one of the requester's key. *)
Theorem addDelegates_requester_second_passphrase
    body n target account members requester :
  admitted library body ->
  delegatedTarget body (deriveKeypair library body) = Some target ->
  resolves library (HexString target) (world n) account ->
  truthy (publicKey account) = true ->
  multisignatures account = Some members ->
  In (signerKey library body) members ->
  resolves library (BufferValue (kp_publicKey (deriveKeypair library body)))
    (world n) requester ->
  truthy (publicKey requester) = true ->
  secondSignature requester = true ->
  truthy (secondSecret body) = false ->
  addDelegates library body n
  = (inl "Missing requester second passphrase",
     afterRequester library (deriveKeypair library body)
       (afterTarget library target n)).
Proof.
  intros Ha Hd Hacc Hpk Hms Hin Hreq Hrpk Hsec Hnone.
  apply addDelegates_rejected; [assumption|].
  rewrite (resolve_delegated _ _ _ _ _ Hd).
  apply delegatedTarget_Some in Hd as (_ & Ht & _).
  apply indexOf_lt_0_In in Hin.
  rewrite (resolveDelegated_member _ _ _ _ _ _ _ _ _ Ht Hacc Hpk Hms Hin Hreq Hrpk).
  now rewrite Hsec, Hnone.
Qed.

(** X13: in the direct path, when [setAccountAndGet] returns no account,
    or an account without a public key, the request is rejected with
    ["Account not found"]. *)
Theorem addDelegates_account_not_found body n n' :
  admitted library body ->
  delegatedTarget body (deriveKeypair library body) = None ->
  setAccountAndGet library (signerData (deriveKeypair library body)) n
    = (inr None, n')
  \/ (exists account,
         setAccountAndGet library (signerData (deriveKeypair library body)) n
           = (inr (Some account), n')
         /\ truthy (publicKey account) = false) ->
  addDelegates library body n = (inl "Account not found", n').
Proof.
  intros Ha Hd Hmiss. apply addDelegates_rejected; [assumption|].
  rewrite (resolve_direct _ _ _ _ Hd). unfold resolveDirect, bind.
  destruct Hmiss as [Hnone|(account & Hacc & Hpk)].
  - now rewrite Hnone.
  - now rewrite Hacc, Hpk.
Qed.

(** ** What makes no difference *)

(** X14: a request that names the signer's own public key as
    [multisigAccountPublicKey] is a direct vote: it is answered as the
    same request without that field (both passing the schema). *)
Theorem addDelegates_self_target body n :
  multisigAccountPublicKey body = Some (signerKey library body) ->
  validate_addDelegates library body = None ->
  validate_addDelegates library (withTarget None body) = None ->
  addDelegates library body n = addDelegates library (withTarget None body) n.
Proof.
  intros Hself Hv Hv'. unfold addDelegates. rewrite Hv, Hv'. cbv zeta.
  change (deriveKeypair library (withTarget None body))
    with (deriveKeypair library body).
  change (publicKeyMismatch (withTarget None body) (deriveKeypair library body))
    with (publicKeyMismatch body (deriveKeypair library body)).
  destruct (publicKeyMismatch body (deriveKeypair library body)); [reflexivity|].
  unfold balancesSequence_add, worker, bind, resolve.
  assert (Hd : delegatedTarget body (deriveKeypair library body) = None).
  { unfold delegatedTarget. rewrite Hself.
    destruct (whenTruthy (Some (signerKey library body))) as [t|] eqn:E;
      [|reflexivity].
    apply whenTruthy_Some in E as [[= <-] _].
    unfold signerKey. now rewrite String.eqb_refl. }
  rewrite Hd. reflexivity.
Qed.

(** X15: in the direct path, when the signer's account has no second
    signature, the [secondSecret] of the request plays no part: the
    request is answered, and the node left, as with any other value of
    that field (both passing the schema). *)
Theorem addDelegates_second_secret_unused body n second :
  validate_addDelegates library body = None ->
  validate_addDelegates library (withSecondSecret second body) = None ->
  delegatedTarget body (deriveKeypair library body) = None ->
  (forall account n',
      setAccountAndGet library (signerData (deriveKeypair library body)) n
        = (inr (Some account), n') ->
      secondSignature account = false) ->
  addDelegates library body n
  = addDelegates library (withSecondSecret second body) n.
Proof.
  intros Hv Hv' Hd Hplain. unfold addDelegates. rewrite Hv, Hv'. cbv zeta.
  change (deriveKeypair library (withSecondSecret second body))
    with (deriveKeypair library body).
  change (publicKeyMismatch (withSecondSecret second body)
            (deriveKeypair library body))
    with (publicKeyMismatch body (deriveKeypair library body)).
  destruct (publicKeyMismatch body (deriveKeypair library body)); [reflexivity|].
  unfold balancesSequence_add, worker, bind, resolve.
  change (delegatedTarget (withSecondSecret second body)
            (deriveKeypair library body))
    with (delegatedTarget body (deriveKeypair library body)).
  rewrite Hd. unfold resolveDirect, bind.
  destruct (setAccountAndGet library (signerData (deriveKeypair library body)) n)
    as [[err|[account|]] n1] eqn:Hset; try reflexivity.
  rewrite (Hplain account n1 eq_refl).
  unfold deriveSecondKeypair. rewrite (Hplain account n1 eq_refl).
  reflexivity.
Qed.

(** X16: a request whose [publicKey] is the public key derived from its
    [secret] is answered as the same request without that field (both
    passing the schema). *)
Theorem addDelegates_expected_key_optional body n :
  body_publicKey body = Some (signerKey library body) ->
  validate_addDelegates library body = None ->
  validate_addDelegates library (withPublicKey None body) = None ->
  addDelegates library body n
  = addDelegates library (withPublicKey None body) n.
Proof.
  intros Hpk Hv Hv'. unfold addDelegates. rewrite Hv, Hv'. cbv zeta.
  change (deriveKeypair library (withPublicKey None body))
    with (deriveKeypair library body).
  assert (Hm : publicKeyMismatch body (deriveKeypair library body) = false).
  { unfold publicKeyMismatch. rewrite Hpk.
    destruct (whenTruthy (Some (signerKey library body))) as [t|] eqn:E;
      [|reflexivity].
    apply whenTruthy_Some in E as [[= <-] _].
    unfold signerKey. now rewrite String.eqb_refl. }
  rewrite Hm. reflexivity.
Qed.

End MoreProperties.

Section HandlerProperties.

Variable World Diff : Type.
Variable library : Scope World.
Variable api : Api World Diff.

Lemma getAccount_address a (n : Node World) :
  getAccount library (addressFilter a) n
  = (account_get library (addressFilter a) (world n),
     record (AccountGet (addressFilter a)) n).
Proof. reflexivity. Qed.

Lemma getAccountRow_address a (n : Node World) :
  getAccountRow library api (addressFilter a) n
  = (account_row api (addressFilter a) (world n),
     record (AccountGet (addressFilter a)) n).
Proof. reflexivity. Qed.

(** ** [shared.getPublickey] *)

(** X17: [getPublickey] answers with a key exactly when the request
    passes the schema, the address matches the pattern and the store
    holds an account at that address whose public key is that key, and
    the key is not empty. *)
Theorem getPublickey_answers body n pk :
  fst (getPublickey library api body n) = inr (mkPublicKeyReply pk) <->
  validate_getPublicKey api body = None
  /\ isAddress (ab_address body) = true
  /\ pk <> ""
  /\ exists account,
      account_get library (addressFilter (ab_address body)) (world n)
        = inr (Some account)
      /\ publicKey account = Some pk.
Proof.
  unfold getPublickey.
  destruct (validate_getPublicKey api body) as [issues|].
  { split; [discriminate | intros [H _]; discriminate]. }
  destruct (isAddress (ab_address body)).
  2:{ split; [discriminate | intros (_ & H & _); discriminate]. }
  cbn [negb]. unfold bind. rewrite getAccount_address.
  destruct (account_get library (addressFilter (ab_address body)) (world n))
    as [err|[account|]].
  - split; [discriminate | intros (_ & _ & _ & a & H & _); discriminate].
  - destruct (whenTruthy (publicKey account)) as [k|] eqn:E.
    + apply whenTruthy_Some in E as [Hk Hne]. split.
      * intros [= <-]. repeat split; try assumption. now exists account.
      * intros (_ & _ & _ & a & [= <-] & Hpk). cbn. congruence.
    + split; [discriminate|].
      intros (_ & _ & Hne & a & [= <-] & Hpk).
      rewrite Hpk, (whenTruthy_nonempty _ Hne) in E. discriminate.
  - split; [discriminate | intros (_ & _ & _ & a & H & _); discriminate].
Qed.

(** ** [shared.getAccount] *)

(** X18: when [shared.getAccount] answers with an account, [getBalance]
    for the same address reports the balance and unconfirmed balance of
    that answer, and [getPublickey] reports its public key, or
    ["Account not found"] when the answer has no public key (each
    passing its own schema, on one and the same store). *)
Theorem shared_getAccount_agrees body n reply n' :
  (forall f w, account_get library f w = accountsOf (account_row api f w)) ->
  shared_getAccount library api body n = (inr reply, n') ->
  (validate_getBalance library (mkGetBalanceBody (ab_address body)) = None ->
   getBalance library (mkGetBalanceBody (ab_address body)) n
   = (inr (mkBalances (ar_balance reply) (ar_unconfirmedBalance reply)), n'))
  /\ (validate_getPublicKey api body = None ->
      getPublickey library api body n
      = (match whenTruthy (ar_publicKey reply) with
         | Some pk => inr (mkPublicKeyReply pk)
         | None => inl "Account not found"
         end, n')).
Proof.
  intros Hrows. unfold shared_getAccount.
  destruct (validate_getAccount api body); [discriminate|].
  destruct (isAddress (ab_address body)) eqn:Haddr; [|discriminate].
  cbn [negb]. unfold bind. rewrite getAccountRow_address.
  destruct (account_row api (addressFilter (ab_address body)) (world n))
    as [err|[row|]] eqn:Hrow; try discriminate.
  intros [= <- <-]. cbn [ar_balance ar_unconfirmedBalance ar_publicKey].
  assert (Hget : account_get library (addressFilter (ab_address body)) (world n)
                 = inr (Some (row_account row))).
  { now rewrite Hrows, Hrow. }
  split; intros Hv.
  - unfold getBalance. rewrite Hv. cbn [gb_address]. rewrite Haddr.
    cbn [negb]. unfold bind. rewrite getAccount_address, Hget. reflexivity.
  - unfold getPublickey. rewrite Hv, Haddr. cbn [negb]. unfold bind.
    rewrite getAccount_address, Hget.
    destruct (whenTruthy (publicKey (row_account row))); reflexivity.
Qed.

(** X19: for an address that matches the pattern and has no account in
    the store, [shared.getAccount] answers ["Account not found"], where
    [getBalance] reports zero balances. *)
Theorem shared_getAccount_unknown body n :
  validate_getAccount api body = None ->
  isAddress (ab_address body) = true ->
  account_row api (addressFilter (ab_address body)) (world n) = inr None ->
  shared_getAccount library api body n
  = (inl "Account not found",
     record (AccountGet (addressFilter (ab_address body))) n).
Proof.
  intros Hv Ha Hrow. unfold shared_getAccount. rewrite Hv, Ha. cbn [negb].
  unfold bind. now rewrite getAccountRow_address, Hrow.
Qed.

(** ** [shared.getDelegates] *)

Lemma includes_In l x : includes l x = true <-> In x l.
Proof.
  unfold includes. rewrite existsb_exists. split.
  - intros [y [Hy E]]. apply String.eqb_eq in E. now subst.
  - intros H. exists x. split; [assumption | apply String.eqb_refl].
Qed.

(** X20: when [getDelegates] answers with a list, the account is in the
    store; the list is empty when the account has no [delegates]
    property, and otherwise holds exactly the delegates of the registry
    whose public key is among the account's votes, whatever error the
    registry reported beside its result. *)
Theorem getDelegates_reply body n reply :
  fst (getDelegates library api body n) = Replied (inr reply) ->
  exists row,
    account_row api (addressFilter (gd_address body)) (world n)
      = inr (Some row)
    /\ match row_delegates row with
       | None => reply_delegates reply = []
       | Some voted =>
           exists err registered,
             delegates_getDelegates api body (world n) = (err, Some registered)
             /\ forall d,
                 In d (reply_delegates reply) <->
                 In d registered /\ In (delegate_publicKey d) voted
       end.
Proof.
  unfold getDelegates.
  destruct (validate_getDelegates api body); [discriminate|].
  rewrite getAccountRow_address.
  destruct (account_row api (addressFilter (gd_address body)) (world n))
    as [err|[row|]]; try discriminate.
  intros H. exists row. split; [reflexivity|].
  destruct (row_delegates row) as [voted|].
  - cbn [world record] in H.
    destruct (delegates_getDelegates api body (world n))
      as [err [registered|]]; [|discriminate].
    exists err, registered. split; [reflexivity|].
    cbn in H. injection H as <-. cbn [reply_delegates].
    intros d. rewrite filter_In, includes_In. reflexivity.
  - cbn in H. now injection H as <-.
Qed.

(** X21: when the account has votes and the registry calls back without a
    result, [getDelegates] throws a [TypeError] and never calls back: the
    error of the registry, if any, is not reported. *)
Theorem getDelegates_without_result body n row voted err :
  validate_getDelegates api body = None ->
  account_row api (addressFilter (gd_address body)) (world n)
    = inr (Some row) ->
  row_delegates row = Some voted ->
  delegates_getDelegates api body (world n) = (err, None) ->
  getDelegates library api body n
  = (Uncaught ETypeError,
     record (AccountGet (addressFilter (gd_address body))) n).
Proof.
  intros Hv Hrow Hvoted Hreg. unfold getDelegates.
  rewrite Hv, getAccountRow_address, Hrow, Hvoted. cbn [world record].
  now rewrite Hreg.
Qed.

(** X22: [getDelegates] does not test the address pattern: every request
    that passes the schema makes exactly one read of the store at the
    address of the request, whatever the outcome. *)
Theorem getDelegates_reads_any_address body n :
  validate_getDelegates api body = None ->
  snd (getDelegates library api body n)
  = record (AccountGet (addressFilter (gd_address body))) n.
Proof.
  intros Hv. unfold getDelegates. rewrite Hv, getAccountRow_address.
  destruct (account_row api (addressFilter (gd_address body)) (world n))
    as [err|[row|]]; try reflexivity.
  destruct (row_delegates row); [|reflexivity].
  cbn [world record].
  destruct (delegates_getDelegates api body (world n)) as [e [registered|]];
    reflexivity.
Qed.

(** ** [Accounts.prototype.mergeAccountAndGet] *)

(** X23: whenever [setAccountAndGet] fails on the address and public key
    of some data without touching the store, [mergeAccountAndGet] fails
    on that data with the same message and merges nothing. *)
Theorem mergeAccountAndGet_unresolved data n msg :
  setAccountAndGet library (merge_key data) n = (inl msg, n) ->
  mergeAccountAndGet library api data n = (inl msg, n).
Proof.
  unfold setAccountAndGet, mergeAccountAndGet.
  assert (Hgo : forall a,
    bind (logic_account_set library a (merge_key data))
      (fun _ => logic_account_get library (addressFilter a)) n
    <> (inl msg, n)).
  { intros a. unfold bind, logic_account_set, logic_account_get.
    destruct (account_set library a (merge_key data) (world n)) as [[err|] w];
      intros H; apply (f_equal (fun r => List.length (calls (snd r)))) in H;
      cbn in H; rewrite !length_app in H; cbn in H;
      revert H; generalize (List.length (calls n)); intros k H;
      induction k; cbn in H; congruence. }
  destruct (whenTruthy (data_address (merge_key data))) as [a|].
  - destruct (a =? ""); [trivial|]. intros H. now apply Hgo in H.
  - destruct (whenTruthy (data_publicKey (merge_key data))) as [pk|]; [|trivial].
    destruct (generateAddressByPublicKey library (HexString pk) =? "");
      [trivial|]. intros H. now apply Hgo in H.
Qed.

End HandlerProperties.

(** * Further runs on the sample node *)

Import MoreSamples.

Lemma isAddress_iff_witness : isAddress "1holderA" = true.
Proof.
  apply (proj2 (isAddress_iff "1holderA")). exists "1holder".
  split; [reflexivity|]. split; [cbn; split; repeat constructor|].
  intros c H. cbn in H.
  repeat (destruct H as [<-|H]; [reflexivity|]). destruct H.
Defined.

Lemma getBalance_answers_witness :
  fst (getBalance library (mkGetBalanceBody "1holderA") bank)
  = inr (mkBalances "250" "240").
Proof.
  apply (proj2 (getBalance_answers World library
                  (mkGetBalanceBody "1holderA") bank (mkBalances "250" "240"))).
  split; [reflexivity|]. split; [reflexivity|].
  exists (Some DevnetApi.holder). split; reflexivity.
Defined.

Lemma delegated_plan_authorized_witness :
  exists members requester,
    resolves library (HexString "02ff")
      (world (start [entry signerGroup; entry signer])) (sender groupPlan)
    /\ truthy (publicKey (sender groupPlan)) = true
    /\ multisignatures (sender groupPlan) = Some members
    /\ In (toHex (kp_publicKey keys)) members
    /\ resolves library (BufferValue (kp_publicKey keys))
         (world (start [entry signerGroup; entry signer])) requester
    /\ truthy (publicKey requester) = true
    /\ publicKey requester <> publicKey (sender groupPlan)
    /\ (secondSignature requester = true ->
        truthy (secondSecret groupVote) = true)
    /\ groupPlan
       = mkTxData (VOTE library) (delegates groupVote) (sender groupPlan) keys
           (deriveSecondKeypair library groupVote requester) (Some keys)
    /\ snd (resolve library groupVote keys
              (start [entry signerGroup; entry signer]))
       = afterRequester library keys
           (afterTarget library "02ff" (start [entry signerGroup; entry signer])).
Proof.
  apply (delegated_plan_authorized World library groupVote keys "02ff"
           (start [entry signerGroup; entry signer]) groupPlan).
  - reflexivity.
  - reflexivity.
Defined.

Lemma direct_plan_second_factor_witness :
  setAccountAndGet library (signerData keys) (start [entry securedSigner])
  = (inr (Some (sender securedPlan)),
     snd (resolve library securedVote keys (start [entry securedSigner])))
  /\ truthy (publicKey (sender securedPlan)) = true
  /\ requester securedPlan = None
  /\ keypair securedPlan = keys
  /\ votes securedPlan = delegates securedVote
  /\ (if secondSignature (sender securedPlan)
      then exists s,
          secondSecret securedVote = Some s /\ s <> ""
          /\ secondKeypair securedPlan
             = Some (makeKeypair library (sha256 library s))
      else secondKeypair securedPlan = None).
Proof.
  apply (direct_plan_second_factor World library securedVote keys
           (start [entry securedSigner])).
  - reflexivity.
  - reflexivity.
Defined.

Lemma addDelegates_pool_answer_witness :
  fst (addDelegates library directVote (start [entry signer]))
  = match fst (receiveTransactions library
                 [mkVoteTransaction 3 "02abcA" (Some "02abc") None ["+02def"]
                    "signed:abc" None]
                 (world (snd (resolve library directVote keys
                                (start [entry signer])))))
    with
    | inl err => inl err
    | inr accepted => inr (mkSubmitted (hd_error accepted))
    end
  /\ world (snd (addDelegates library directVote (start [entry signer])))
     = snd (receiveTransactions library
              [mkVoteTransaction 3 "02abcA" (Some "02abc") None ["+02def"]
                 "signed:abc" None]
              (world (snd (resolve library directVote keys
                             (start [entry signer]))))).
Proof.
  apply (addDelegates_pool_answer World library directVote
           (start [entry signer])
           (mkTxData 3 ["+02def"] signer keys None None)).
  - split; reflexivity.
  - reflexivity.
  - reflexivity.
Defined.

Lemma addDelegates_target_not_found_witness :
  addDelegates library groupVote (start [entry signer])
  = (inl "Multisignature account not found",
     afterTarget library "02ff" (start [entry signer])).
Proof.
  apply (addDelegates_target_not_found World library groupVote
           (start [entry signer]) "02ff").
  - split; reflexivity.
  - reflexivity.
  - left. reflexivity.
Defined.

Lemma addDelegates_requester_not_found_witness :
  addDelegates library groupVote (start [entry signerGroup])
  = (inl "Requester not found",
     afterRequester library keys
       (afterTarget library "02ff" (start [entry signerGroup]))).
Proof.
  apply (addDelegates_requester_not_found World library groupVote
           (start [entry signerGroup]) "02ff" signerGroup ["02abc"]).
  - split; reflexivity.
  - reflexivity.
  - reflexivity.
  - reflexivity.
  - reflexivity.
  - simpl. auto.
  - left. reflexivity.
Defined.

Lemma addDelegates_requester_second_passphrase_witness :
  addDelegates library groupVote (start [entry signerGroup; entry securedSigner])
  = (inl "Missing requester second passphrase",
     afterRequester library keys
       (afterTarget library "02ff"
          (start [entry signerGroup; entry securedSigner]))).
Proof.
  apply (addDelegates_requester_second_passphrase World library groupVote
           (start [entry signerGroup; entry securedSigner]) "02ff"
           signerGroup ["02abc"] securedSigner).
  - split; reflexivity.
  - reflexivity.
  - reflexivity.
  - reflexivity.
  - reflexivity.
  - simpl. auto.
  - reflexivity.
  - reflexivity.
  - reflexivity.
  - reflexivity.
Defined.

Lemma addDelegates_account_not_found_witness :
  addDelegates forgetful directVote (start [])
  = (inl "Account not found",
     snd (setAccountAndGet forgetful (signerData keys) (start []))).
Proof.
  apply (addDelegates_account_not_found World forgetful directVote (start [])).
  - split; reflexivity.
  - reflexivity.
  - left. reflexivity.
Defined.

Lemma addDelegates_self_target_witness :
  addDelegates library ownKeyVote (start [entry signer])
  = addDelegates library (withTarget None ownKeyVote) (start [entry signer]).
Proof.
  apply (addDelegates_self_target World library ownKeyVote
           (start [entry signer])).
  - reflexivity.
  - reflexivity.
  - reflexivity.
Defined.

Lemma addDelegates_second_secret_unused_witness :
  addDelegates library directVote (start [entry signer])
  = addDelegates library (withSecondSecret (Some "pin") directVote)
      (start [entry signer]).
Proof.
  apply (addDelegates_second_secret_unused World library directVote
           (start [entry signer]) (Some "pin")).
  - reflexivity.
  - reflexivity.
  - reflexivity.
  - intros account n' H. vm_compute in H. injection H as <- _. reflexivity.
Defined.

Lemma addDelegates_expected_key_optional_witness :
  addDelegates library checkedVote (start [entry signer])
  = addDelegates library (withPublicKey None checkedVote) (start [entry signer]).
Proof.
  apply (addDelegates_expected_key_optional World library checkedVote
           (start [entry signer])).
  - reflexivity.
  - reflexivity.
  - reflexivity.
Defined.

Lemma getPublickey_answers_witness :
  fst (getPublickey library DevnetApi.api holderQuery bank)
  = inr (mkPublicKeyReply "03aa").
Proof.
  apply (proj2 (getPublickey_answers World DevnetApi.Diff library DevnetApi.api
                  holderQuery bank "03aa")).
  split; [reflexivity|]. split; [reflexivity|]. split; [discriminate|].
  exists DevnetApi.holder. split; reflexivity.
Defined.

Lemma shared_getAccount_agrees_witness :
  getBalance library (mkGetBalanceBody "1holderA") bank
  = (inr (mkBalances "250" "240"),
     record (AccountGet (addressFilter "1holderA")) bank)
  /\ getPublickey library DevnetApi.api holderQuery bank
     = (inr (mkPublicKeyReply "03aa"),
        record (AccountGet (addressFilter "1holderA")) bank).
Proof.
  destruct (shared_getAccount_agrees World DevnetApi.Diff library DevnetApi.api
              holderQuery bank
              (mkAccountReply "1holderA" "240" "250" (Some "03aa") false true
                 None ["03bb"] ["03bb"])
              (record (AccountGet (addressFilter "1holderA")) bank))
    as [Hb Hk].
  - intros f w. cbn. unfold DevnetApi.row.
    destruct (get f w) as [err|[a|]]; reflexivity.
  - reflexivity.
  - split; [apply Hb | apply Hk]; reflexivity.
Defined.

Lemma shared_getAccount_unknown_witness :
  shared_getAccount library DevnetApi.api (mkAddressBody "1nobodyA") bank
  = (inl "Account not found",
     record (AccountGet (addressFilter "1nobodyA")) bank).
Proof.
  apply (shared_getAccount_unknown World DevnetApi.Diff library DevnetApi.api
           (mkAddressBody "1nobodyA") bank); reflexivity.
Defined.

Lemma getDelegates_reply_witness :
  exists row,
    account_row DevnetApi.api (addressFilter "1holderA") (world bank)
      = inr (Some row)
    /\ match row_delegates row with
       | None =>
           reply_delegates
             (mkDelegatesReply
                [mkDelegate "genesis_1" "02d1"; mkDelegate "genesis_3" "02d3"])
           = []
       | Some voted =>
           exists err registered,
             delegates_getDelegates DevnetApi.api holderVotes (world bank)
               = (err, Some registered)
             /\ forall d,
                 In d (reply_delegates
                         (mkDelegatesReply
                            [mkDelegate "genesis_1" "02d1";
                             mkDelegate "genesis_3" "02d3"])) <->
                 In d registered /\ In (delegate_publicKey d) voted
       end.
Proof.
  apply (getDelegates_reply World DevnetApi.Diff library DevnetApi.api
           holderVotes bank).
  reflexivity.
Defined.

Lemma getDelegates_without_result_witness :
  getDelegates library DevnetApi.api holderVotesBadSort bank
  = (Uncaught ETypeError, record (AccountGet (addressFilter "1holderA")) bank).
Proof.
  apply (getDelegates_without_result World DevnetApi.Diff library DevnetApi.api
           holderVotesBadSort bank (DevnetApi.rowOf DevnetApi.holder)
           ["02d1"; "02d3"] (Some "Invalid sort field")); reflexivity.
Defined.

Lemma getDelegates_reads_any_address_witness :
  isAddress "not an address" = false
  /\ snd (getDelegates library DevnetApi.api oddVotes bank)
     = record (AccountGet (addressFilter "not an address")) bank.
Proof.
  split; [reflexivity|].
  apply (getDelegates_reads_any_address World DevnetApi.Diff library
           DevnetApi.api oddVotes bank).
  reflexivity.
Defined.

Lemma mergeAccountAndGet_unresolved_witness :
  mergeAccountAndGet library DevnetApi.api
    (mkMergeData (mkAccountData None (Some "")) "5") bank
  = (inl "Missing address or public key", bank).
Proof.
  apply (mergeAccountAndGet_unresolved World DevnetApi.Diff library
           DevnetApi.api (mkMergeData (mkAccountData None (Some "")) "5") bank).
  reflexivity.
Defined.
